(** * claude-code-router: the Ollama proxy and the Ollama transformer

    A shallow embedding of
      - [scripts/ts/ollama-proxy.ts]  (class [OllamaProxy]) and
      - [src/transformers/ollama.ts]  (the [ollama] transformer)
    together with the properties of the daemon protocol proxy and of the
    transformer that the specification states about them. *)

From Stdlib Require Import ZArith List String Ascii Bool Lia PrimFloat.
From Stdlib Require Import Numbers.DecimalString.
Import ListNotations.
Open Scope string_scope.
Open Scope list_scope.
Open Scope Z_scope.
Set Warnings "-register-all,-inexact-float".

(** ** JavaScript data *)

Module Js.

(** A JavaScript [number] is an IEEE 754 double: Rocq's primitive
    [float].  Values of type [any] that come out of [JSON.parse], or
    that are built by object literals, are trees of the following
    shape; the fields of an object are kept in insertion order. *)
Inductive value : Type :=
| VUndefined
| VNull
| VBool (b : bool)
| VNum (n : float)
| VStr (s : string)
| VArr (items : list value)
| VObj (fields : list (string * value)).

(** [ToBoolean] on numbers: [0], [-0] and [NaN] are falsy. *)
Definition truthy_number (n : float) : bool :=
  negb (PrimFloat.eqb n 0%float || negb (PrimFloat.eqb n n)).

(** [ToBoolean]: what [if (v)] and [v || d] test. *)
Definition truthy (v : value) : bool :=
  match v with
  | VUndefined | VNull => false
  | VBool b => b
  | VNum n => truthy_number n
  | VStr s => negb (String.eqb s "")
  | VArr _ | VObj _ => true
  end.

(** [a || b] *)
Definition or (a b : value) : value := if truthy a then a else b.

Fixpoint lookup (k : string) (fields : list (string * value)) : value :=
  match fields with
  | [] => VUndefined
  | (k', v) :: rest => if String.eqb k k' then v else lookup k rest
  end.

(** [v.k] for a property name [k] that is not built into strings, arrays
    or [Object.prototype]; every name read here ([model], [messages],
    [stream], [max_tokens], [temperature], [top_p], [tools], [error],
    [prompt], [options] and the names of the options) is such a name, so
    reading it from anything but an object that holds it gives
    [undefined].  Reading a property of [undefined] or [null] throws a
    [TypeError]: [None]. *)
Definition get (v : value) (k : string) : option value :=
  match v with
  | VUndefined | VNull => None
  | VObj fields => Some (lookup k fields)
  | _ => Some VUndefined
  end.

(** [v !== false] *)
Definition not_false (v : value) : bool :=
  match v with
  | VBool false => false
  | _ => true
  end.

(** The conversion to a string of a template literal succeeds.  It does
    for every primitive value.  An object out of [JSON.parse] is
    converted by the [toString] it inherits unless it has a property of
    that name of its own, which is never a function: then neither that
    nor [valueOf] gives a primitive value and a [TypeError] is thrown.
    An array is converted by joining the conversions of its items. *)
Fixpoint stringifies (v : value) : bool :=
  match v with
  | VObj fields => negb (existsb (fun kv => String.eqb "toString" (fst kv)) fields)
  | VArr items => forallb stringifies items
  | _ => true
  end.

End Js.

Import Js.

(** A read that may throw: [None] is the exception, and what follows a
    throwing read is not run. *)
Definition and_then {A B : Type} (rest : A -> option B) (read : option A)
    : option B :=
  match read with
  | None => None
  | Some a => rest a
  end.

Notation "'let?' x ':=' e 'in' k" := (and_then (fun x => k) e)
  (at level 200, x name, e at level 100, k at level 200).

(** ** src/transformers/ollama.ts *)

Module OllamaTransformer.

(** [interface HttpRequest] of [src/types/index.ts]; a
    [Record<string, string>] is a list of bindings. *)
Record HttpRequest : Type := mkHttpRequest {
  body : value;
  headers : list (string * string);
  method : string;
  url : string;
  params : option (list (string * string));
  query : option (list (string * string))
}.

Definition name : string := "ollama".
Definition endpoint : string := "/api/chat".

(** [if (v) { obj.k = v }] *)
Definition optional_field (k : string) (v : value) : list (string * value) :=
  if truthy v then [(k, v)] else [].

(** [transformRequest]; [None] is the [TypeError] of reading a property
    of an [undefined] or [null] body. *)
Definition transformRequest (req : HttpRequest) : option HttpRequest :=
  let openaiRequest := body req in
  let? model := get openaiRequest "model" in
  let? messages := get openaiRequest "messages" in
  let? stream := get openaiRequest "stream" in
  let ollamaRequest :=
    [ ("model", model);
      ("messages", messages);
      ("stream", VBool (not_false stream)) ] in
  let? max_tokens := get openaiRequest "max_tokens" in
  let ollamaRequest := ollamaRequest ++ optional_field "max_tokens" max_tokens in
  let? temperature := get openaiRequest "temperature" in
  let ollamaRequest := ollamaRequest ++ optional_field "temperature" temperature in
  let? top_p := get openaiRequest "top_p" in
  let ollamaRequest := ollamaRequest ++ optional_field "top_p" top_p in
  let? tools := get openaiRequest "tools" in
  let ollamaRequest := ollamaRequest ++ optional_field "tools" tools in
  Some {| body := VObj ollamaRequest;
          headers := headers req;
          method := method req;
          url := url req;
          params := params req;
          query := query req |}.

(** [transformResponse], for whatever the framework's response object
    is. *)
Definition transformResponse {HttpResponse : Type}
    (response : HttpResponse) (req : HttpRequest) : HttpResponse :=
  response.

End OllamaTransformer.

(** ** scripts/ts/ollama-proxy.ts *)

Module OllamaProxy.

(** *** Requests and responses *)

(** [interface Message] and [interface ChatRequest], in the fields that
    matter to the proxy: the OpenAI-style request it accepts on
    [/v1/chat/completions]. *)
Record Message : Type := mkMessage {
  role : string;
  content : string
}.

Record ChatRequest : Type := mkChatRequest {
  model : string;
  messages : list Message;
  max_tokens : option float;
  temperature : option float;
  top_p : option float;
  stream : option bool
}.

(** The fields of [interface OllamaResponse] that the proxy reads, and
    the [response] text of the daemon's generate endpoint. *)
Record OllamaResponse : Type := mkOllamaResponse {
  response : option string;
  done_reason : option string;
  prompt_eval_count : option float;
  eval_count : option float
}.

(** [interface ChatResponse] with [ChatChoice] and [Usage]. *)
Record ChatChoice : Type := mkChatChoice {
  index : Z;
  message : Message;
  finish_reason : string
}.

Record Usage : Type := mkUsage {
  prompt_tokens : float;
  completion_tokens : float;
  total_tokens : float
}.

Record ChatResponse : Type := mkChatResponse {
  id : string;
  object : string;
  created : Z;
  response_model : string;
  choices : list ChatChoice;
  usage : Usage
}.

(** An optional property read as a JavaScript value. *)
Definition number_prop (x : option float) : value :=
  match x with
  | Some n => VNum n
  | None => VUndefined
  end.

(** [x || d] on an optional number and on an optional string. *)
Definition number_or (x : option float) (d : float) : float :=
  match x with
  | Some n => if truthy_number n then n else d
  | None => d
  end.

Definition string_or (x : option string) (d : string) : string :=
  match x with
  | Some s => if String.eqb s "" then d else s
  | None => d
  end.

(** *** [model.replace(/^ollama,/, '')] *)

(** [strip_prefix p s] is [Some rest] when [s = p ++ rest]. *)
Fixpoint strip_prefix (p s : string) : option string :=
  match p with
  | EmptyString => Some s
  | String a p' =>
      match s with
      | EmptyString => None
      | String b s' => if Ascii.eqb a b then strip_prefix p' s' else None
      end
  end.

(** [s.replace(/^p/, '')] for a literal [p]: the pattern is anchored at
    the start and has no [g] flag, so at most one match is removed. *)
Definition replace_leading (p s : string) : string :=
  match strip_prefix p s with
  | Some rest => rest
  | None => s
  end.

Definition newline : string := String (ascii_of_nat 10) EmptyString.

(** *** [convertOpenAIToOllama] *)

Definition convertOpenAIToOllama (openaiRequest : ChatRequest) : value :=
  let model := replace_leading "ollama," (model openaiRequest) in
  let prompt :=
    String.concat newline
      (map (fun msg => role msg ++ ": " ++ content msg)%string
           (messages openaiRequest)) in
  VObj [ ("model", VStr model);
         ("prompt", VStr prompt);
         ("stream", VBool false);
         ("options",
          VObj [ ("num_predict",
                  Js.or (number_prop (max_tokens openaiRequest)) (VNum 100));
                 ("temperature",
                  Js.or (number_prop (temperature openaiRequest)) (VNum 0.7));
                 ("top_p",
                  Js.or (number_prop (top_p openaiRequest)) (VNum 0.9)) ]) ].

(** *** [convertOllamaToOpenAI] *)

(** A template literal prints an integer in decimal. *)
Definition decimal (n : Z) : string := NilZero.string_of_int (Z.to_int n).

(** The two calls of [Date.now()] are two readings of the clock, in
    milliseconds: [now_id] for the identifier, [now_created] for the
    creation time. *)
Definition convertOllamaToOpenAI (now_id now_created : Z)
    (ollamaResponse : OllamaResponse) (originalRequest : ChatRequest)
    : ChatResponse :=
  {| id := "chatcmpl-" ++ decimal now_id;
     object := "chat.completion";
     created := now_created / 1000;
     response_model := model originalRequest;
     choices :=
       [ {| index := 0;
            message := {| role := "assistant";
                          content := string_or (response ollamaResponse) "" |};
            finish_reason := string_or (done_reason ollamaResponse) "stop" |} ];
     usage :=
       {| prompt_tokens := number_or (prompt_eval_count ollamaResponse) 0;
          completion_tokens := number_or (eval_count ollamaResponse) 0;
          total_tokens :=
            (number_or (prompt_eval_count ollamaResponse) 0
             + number_or (eval_count ollamaResponse) 0)%float |} |}.

(** *** [callOllama] *)

(** The proxy object: [constructor(port = 11435)]. *)
Record Proxy : Type := mkProxy {
  port : Z;
  ollamaHost : string;
  ollamaPort : Z
}.

Definition new_OllamaProxy (port : Z) : Proxy :=
  {| port := port; ollamaHost := "localhost"; ollamaPort := 11434 |}.

Definition default_proxy : Proxy := new_OllamaProxy 11435.

(** The [options] of [http.request]; the two headers describe the
    serialised body and are read by nothing here. *)
Record RequestOptions : Type := mkRequestOptions {
  hostname : string;
  request_port : Z;
  path : string;
  method : string;
  timeout : Z
}.

Definition request_options (this : Proxy) : RequestOptions :=
  {| hostname := ollamaHost this;
     request_port := ollamaPort this;
     path := "/api/generate";
     method := "POST";
     timeout := 30000 |}.

(** The text of a response body, by what [JSON.parse] makes of it: the
    serialisation of a JSON value, or a text that [JSON.parse] rejects
    with a [SyntaxError]. *)
Inductive Data : Type :=
| Json (v : value)
| NotJson (text : string).

Definition JSON_parse (data : Data) : option value :=
  match data with
  | Json v => Some v
  | NotJson _ => None
  end.

(** What one attempt delivers to the handlers of [callOllama]:
    - [Responded]: the response arrives whole, its ['end'] handler runs;
    - [Failed]: the request emits ['error'], with the [code] of the
      error;
    - [TimedOut]: the request emits ['timeout'] before any response; the
      handler's [req.destroy()] closes the socket, on which the request
      emits ['error'] with the code [ECONNRESET] (socket hang up): both
      handlers run, in this order;
    - [Stalled]: the request emits ['timeout'] while the response is
      arriving; [req.destroy()] then aborts the response, which neither
      ends nor makes the request emit ['error']: only the ['timeout']
      handler runs;
    - [Aborted]: the connection is closed while the response is
      arriving: the response does not end and the request emits
      nothing, no handler runs. *)
Inductive Event : Type :=
| Responded (statusCode : Z) (data : Data)
| Failed (code : option string)
| TimedOut
| Stalled
| Aborted.

(** The error objects the promise is rejected with. *)
Inductive ProxyError : Type :=
| ModelError (responseData : value)
    (* new Error(`Ollama model error: ...`), statusCode = 400 *)
| ApiError (statusCode : Z) (responseData : Data)
    (* new Error(`Ollama API error: ...`), statusCode = res.statusCode *)
| SyntaxError
    (* thrown by JSON.parse *)
| TypeError
    (* thrown by reading [.error] of null, or by the template literal
       of the model error for an [error] that has no string conversion *)
| RequestError (code : option string)
    (* the argument of the 'error' event *)
| TimeoutError.
    (* new Error('Ollama request timeout'), code = 'TIMEOUT' *)

Definition code (error : ProxyError) : option string :=
  match error with
  | RequestError c => c
  | TimeoutError => Some "TIMEOUT"
  | _ => None
  end.

Definition statusCode (error : ProxyError) : option Z :=
  match error with
  | ModelError _ => Some 400
  | ApiError s _ => Some s
  | _ => None
  end.

Definition code_is (error : ProxyError) (c : string) : bool :=
  match code error with
  | Some c' => String.eqb c' c
  | None => false
  end.

Definition shouldRetry (error : ProxyError) : bool :=
  if code_is error "ECONNREFUSED" || code_is error "ENOTFOUND"
     || code_is error "TIMEOUT"
  then true
  else
    match statusCode error with
    | Some s => if negb (s =? 0) && (500 <=? s) then true else false
    | None => false
    end.

Definition maxRetries : nat := 3.
Definition baseDelay : Z := 1000.

(** How the promise ends: resolved, rejected, or never settled. *)
Inductive Settled : Type :=
| Resolved (response : value)
| Rejected (error : ProxyError)
| Pending.

(** The outcome of a call: how its promise ends, and the delays of the
    [setTimeout] calls made until it settles (of all of them, when it
    never does), in order. *)
Record Outcome : Type := mkOutcome {
  settled : Settled;
  delays : list Z
}.

(** The daemon and the network: what attempt number [retryCount] with
    these options and this request body ends in. *)
Definition Upstream : Type := RequestOptions -> value -> nat -> Event.

(** [setTimeout(() => this.callOllama(requestData, retryCount + 1)
      .then(resolve).catch(reject), delay)] *)
Definition after (delay : Z) (retry : option Outcome) : option Outcome :=
  match retry with
  | Some o => Some {| settled := settled o; delays := delay :: delays o |}
  | None => None
  end.

(** The ['end'] handler of a response; what its [try] throws, the
    [catch] rejects with. *)
Definition on_end (statusCode : Z) (data : Data) : Settled :=
  if statusCode =? 200 then
    match JSON_parse data with
    | None => Rejected SyntaxError
    | Some response =>
        match get response "error" with
        | None => Rejected TypeError
        | Some error =>
            if truthy error then
              if stringifies error then Rejected (ModelError response)
              else Rejected TypeError
            else Resolved response
        end
    end
  else Rejected (ApiError statusCode data).

(** [callOllama(requestData, retryCount)]; the recursion is on [fuel],
    one unit per attempt.  A promise settles once: of the two handlers
    that run on [TimedOut], the ['timeout'] handler rejects when the
    budget is used up, and otherwise sets the timer of a retry and
    leaves the promise to the ['error'] handler, which rejects it with
    the [ECONNRESET] error, since [shouldRetry] turns that code down
    (what the retry does later cannot change a settled promise). *)
Fixpoint callOllama_fuel (fuel : nat) (this : Proxy) (upstream : Upstream)
    (requestData : value) (retryCount : nat) : option Outcome :=
  match fuel with
  | O => None
  | S fuel' =>
      let options := request_options this in
      match upstream options requestData retryCount with
      | Responded statusCode data =>
          Some {| settled := on_end statusCode data; delays := [] |}
      | Failed c =>
          let error := RequestError c in
          if (retryCount <? maxRetries)%nat && shouldRetry error then
            let delay := baseDelay * 2 ^ Z.of_nat retryCount in
            after delay
              (callOllama_fuel fuel' this upstream requestData
                 (retryCount + 1))
          else Some {| settled := Rejected error; delays := [] |}
      | TimedOut =>
          let error := TimeoutError in
          if (retryCount <? maxRetries)%nat then
            let delay := baseDelay * 2 ^ Z.of_nat retryCount in
            let reset := RequestError (Some "ECONNRESET") in
            Some {| settled := Rejected reset; delays := [delay] |}
          else Some {| settled := Rejected error; delays := [] |}
      | Stalled =>
          let error := TimeoutError in
          if (retryCount <? maxRetries)%nat then
            let delay := baseDelay * 2 ^ Z.of_nat retryCount in
            after delay
              (callOllama_fuel fuel' this upstream requestData
                 (retryCount + 1))
          else Some {| settled := Rejected error; delays := [] |}
      | Aborted => Some {| settled := Pending; delays := [] |}
      end
  end.

(** No call makes more than [maxRetries + 1] attempts
    (see [callOllama_fuel_enough]). *)
Definition callOllama (this : Proxy) (upstream : Upstream)
    (requestData : value) (retryCount : nat) : option Outcome :=
  callOllama_fuel (S maxRetries) this upstream requestData retryCount.

(** The reply of [handleChatCompletion] to a rejected call: the HTTP
    status [proxyError.statusCode || 500] and the [type] of the
    OpenAI-style error object. *)
Definition reply_status (error : ProxyError) : Z :=
  match statusCode error with
  | Some s => if s =? 0 then 500 else s
  | None => 500
  end.

Definition reply_type (error : ProxyError) : string :=
  match statusCode error with
  | Some 400 => "invalid_request_error"
  | _ => "internal_error"
  end.

(** The number of retries a call has set the timer of. *)
Definition retries (o : Outcome) : nat := List.length (delays o).

End OllamaProxy.

(** ** Vocabulary of the properties *)

Module Spec.

Import OllamaProxy.

(** A connection refused or a failed DNS lookup, as the ['error'] event
    of the request reports them: the codes [ECONNREFUSED] and
    [ENOTFOUND]. *)
Definition transport_failure (ev : Event) : bool :=
  match ev with
  | Failed (Some c) => String.eqb c "ECONNREFUSED" || String.eqb c "ENOTFOUND"
  | _ => false
  end.

(** The event that ends attempt number [n] of a call. *)
Definition attempt (this : Proxy) (upstream : Upstream) (requestData : value)
    (n : nat) : Event :=
  upstream (request_options this) requestData n.

(** The daemon answered with a completion: a JSON body whose [error]
    property is absent or falsy. *)
Definition completion (v : value) : bool :=
  match get v "error" with
  | Some error => negb (truthy error)
  | None => false
  end.

(** The object has a property of this name. *)
Definition has_field (k : string) (v : value) : bool :=
  match v with
  | VObj fields => existsb (fun kv => String.eqb k (fst kv)) fields
  | _ => false
  end.

(** A role-tagged message as an element of a [messages] array. *)
Definition message_value (m : Message) : value :=
  VObj [ ("role", VStr (role m)); ("content", VStr (content m)) ].

(** [request.options.k] of a daemon request. *)
Definition daemon_option (request : value) (k : string) : option value :=
  match get request "options" with
  | Some options => get options k
  | None => None
  end.

(** [response.choices[0].finish_reason] *)
Definition first_finish_reason (r : ChatResponse) : option string :=
  option_map finish_reason (hd_error (choices r)).

End Spec.

(** ** Sample requests and daemons *)

Module Samples.

Import OllamaProxy.

Definition chat : ChatRequest :=
  {| model := "ollama,llama3.2:latest";
     messages := [ {| role := "system"; content := "Be brief." |};
                   {| role := "user"; content := "hi" |} ];
     max_tokens := Some 64%float;
     temperature := Some 0%float;
     top_p := None;
     stream := None |}.

(** The same conversation for another model name. *)
Definition chat_with (name : string) : ChatRequest :=
  {| model := name;
     messages := messages chat;
     max_tokens := Some 64%float;
     temperature := Some 0.2%float;
     top_p := None;
     stream := None |}.

Definition completion_body : value :=
  VObj [ ("model", VStr "llama3.2:latest");
         ("response", VStr "hello");
         ("done", VBool true);
         ("done_reason", VStr "stop") ].


(** The daemon's answer for a model it does not have. *)
Definition model_not_found : value :=
  VObj [ ("error", VStr "model 'non-existent-model' not found") ].

Definition server_error : Data := NotJson "Internal Server Error".

(** The daemon request made from [chat]. *)
Definition generate : value := convertOpenAIToOllama chat.

(** Refuses the connection, then times out, then answers. *)
Definition flaky : Upstream :=
  fun _ _ n =>
    match n with
    | 0%nat => Failed (Some "ECONNREFUSED")
    | 1%nat => TimedOut
    | _ => Responded 200 (Json completion_body)
    end.

(** Serves the chat endpoint and refuses every other connection. *)
Definition chat_only : Upstream :=
  fun options _ _ =>
    if String.eqb (path options) "/api/chat"
    then Responded 200 (Json completion_body)
    else Failed (Some "ECONNREFUSED").

(** Refuses every connection. *)
Definition refusing : Upstream :=
  fun _ _ _ => Failed (Some "ECONNREFUSED").

(** Refuses the connection, then cannot be looked up, then answers. *)
Definition recovering : Upstream :=
  fun _ _ n =>
    match n with
    | 0%nat => Failed (Some "ECONNREFUSED")
    | 1%nat => Failed (Some "ENOTFOUND")
    | _ => Responded 200 (Json completion_body)
    end.

(** Accepts the connection and never answers. *)
Definition silent : Upstream :=
  fun _ _ _ => TimedOut.

(** The name server asks to try again later. *)
Definition unresolved : Upstream :=
  fun _ _ _ => Failed (Some "EAI_AGAIN").

(** The daemon's host name never resolves. *)
Definition unreachable : Upstream :=
  fun _ _ _ => Failed (Some "ENOTFOUND").

(** Answers every request with this status and body. *)
Definition answering (statusCode : Z) (data : Data) : Upstream :=
  fun _ _ _ => Responded statusCode data.

(** A daemon payload with a reason the daemon gives when it only loads a
    model. *)
Definition loaded : OllamaResponse :=
  {| response := None;
     done_reason := Some "load";
     prompt_eval_count := None;
     eval_count := None |}.

Definition generated : OllamaResponse :=
  {| response := Some "hello";
     done_reason := Some "length";
     prompt_eval_count := Some 12%float;
     eval_count := None |}.

(** A request to the transformer that asks for no streaming. *)
Definition unstreamed : OllamaTransformer.HttpRequest :=
  {| OllamaTransformer.body :=
       VObj [ ("model", VStr "llama3.2:latest");
              ("messages", VArr []);
              ("stream", VBool false) ];
     OllamaTransformer.headers := [ ("content-type", "application/json") ];
     OllamaTransformer.method := "POST";
     OllamaTransformer.url := "/v1/chat/completions";
     OllamaTransformer.params := None;
     OllamaTransformer.query := None |}.

End Samples.

(** ** scripts/ts/ollama-proxy.ts: the HTTP front *)

Module ProxyServer.

Import OllamaProxy.









End ProxyServer.

(** ** src/types/transformer.ts *)

Module TransformerTypes.

(** The data of [interface HttpResponse]: its optional [headers]; the
    other members are methods. *)
Record HttpResponse : Type := mkHttpResponse {
  headers : option (list (string * string))
}.

(** [record[key]] of a [Record<string, string>]. *)
Fixpoint record_get (key : string) (record : list (string * string))
    : option string :=
  match record with
  | [] => None
  | (k, v) :: rest => if String.eqb key k then Some v else record_get key rest
  end.

(** [s.includes(needle)] *)
Fixpoint includes (s needle : string) : bool :=
  match OllamaProxy.strip_prefix needle s with
  | Some _ => true
  | None =>
      match s with
      | EmptyString => false
      | String _ s' => includes s' needle
      end
  end.

(** [response.headers?.['content-type'] || ''] and the two tests of
    [isStreamingResponse]. *)
Definition isStreamingResponse (response : HttpResponse) : bool :=
  let contentType :=
    OllamaProxy.string_or
      (match headers response with
       | Some record => record_get "content-type" record
       | None => None
       end) "" in
  includes contentType "text/event-stream" || includes contentType "text/plain".

End TransformerTypes.

(** ** Further vocabulary *)

Module Terms.

Import OllamaProxy.

(** With budget left, the handlers that run on this event set the timer
    of the next attempt and leave the promise to it. *)
Definition passes_on (ev : Event) : bool :=
  match ev with
  | Failed c => shouldRetry (RequestError c)
  | Stalled => true
  | Responded _ _ | TimedOut | Aborted => false
  end.

(** How the promise ends when attempt number [retryCount] ends in this
    event and does not pass the promise on. *)
Definition ends (retryCount : nat) (ev : Event) : Settled :=
  match ev with
  | Responded statusCode data => on_end statusCode data
  | Failed c => Rejected (RequestError c)
  | TimedOut =>
      if (retryCount <? maxRetries)%nat
      then Rejected (RequestError (Some "ECONNRESET"))
      else Rejected TimeoutError
  | Stalled => Rejected TimeoutError
  | Aborted => Pending
  end.

(** The timer that the ['timeout'] handler sets before the ['error']
    handler rejects the promise. *)
Definition orphan_timers (retryCount : nat) (ev : Event) : nat :=
  match ev with
  | TimedOut => if (retryCount <? maxRetries)%nat then 1 else 0
  | _ => 0
  end.

(** The time spent waiting between attempts, in milliseconds. *)
Definition total_delay (o : Outcome) : Z := fold_right Z.add 0 (delays o).

(** The [prompt] of the daemon request made from these messages. *)
Definition prompt_of (ms : list Message) : string :=
  String.concat newline
    (map (fun msg => role msg ++ ": " ++ content msg)%string ms).

(** A request that differs only in its messages. *)
Definition with_messages (req : ChatRequest) (ms : list Message) : ChatRequest :=
  {| model := model req;
     messages := ms;
     max_tokens := max_tokens req;
     temperature := temperature req;
     top_p := top_p req;
     stream := stream req |}.

(** The names of the properties [transformRequest] writes. *)
Definition written : list string :=
  [ "model"; "messages"; "stream"; "max_tokens"; "temperature"; "top_p";
    "tools" ].

Definition optional : list string :=
  [ "max_tokens"; "temperature"; "top_p"; "tools" ].

End Terms.

(** ** Further samples *)

Module MoreSamples.

Import OllamaProxy.

(** The connection is reset on the first attempt. *)
Definition resetting : Upstream :=
  fun _ _ _ => Failed (Some "ECONNRESET").

(** Like [Samples.unreachable] on the four attempts a call can make,
    and answering from the fifth on. *)
Definition reachable_too_late : Upstream :=
  fun _ _ n =>
    if (n <=? 3)%nat then Failed (Some "ENOTFOUND")
    else Responded 200 (Json Samples.completion_body).

(** A transformer request with a zero temperature, a token limit and a
    property the transformer does not know. *)
Definition tuned : OllamaTransformer.HttpRequest :=
  {| OllamaTransformer.body :=
       VObj [ ("model", VStr "llama3.2:latest");
              ("messages", VArr []);
              ("temperature", VNum 0);
              ("max_tokens", VNum 64);
              ("seed", VNum 7) ];
     OllamaTransformer.headers := [ ("content-type", "application/json") ];
     OllamaTransformer.method := "POST";
     OllamaTransformer.url := "/v1/chat/completions";
     OllamaTransformer.params := None;
     OllamaTransformer.query := None |}.



(** A response announced as an event stream, with a parameter. *)
Definition event_stream : TransformerTypes.HttpResponse :=
  {| TransformerTypes.headers :=
       Some [ ("cache-control", "no-cache");
              ("content-type", "text/event-stream; charset=utf-8") ] |}.

End MoreSamples.

(** ** Properties *)

Import Spec.

(** *** The transformer's response side *)

(** C7. The transformer's [transformResponse] hands back the response it
    was given, whatever the original request, so a second application
    changes nothing. *)
Theorem transformResponse_identity_idempotent :
  forall (HttpResponse : Type) (response : HttpResponse)
         (req req' : OllamaTransformer.HttpRequest),
    OllamaTransformer.transformResponse response req = response /\
    OllamaTransformer.transformResponse
      (OllamaTransformer.transformResponse response req) req'
    = OllamaTransformer.transformResponse response req.
Proof.
  intros HttpResponse response req req'.
  unfold OllamaTransformer.transformResponse. split; reflexivity.
Qed.

(** *** The transformer's request side *)

Lemma lookup_stream_of_transformed :
  forall model messages stream rest,
    Js.lookup "stream"
      ([ ("model", model); ("messages", messages); ("stream", stream) ] ++ rest)
    = stream.
Proof.
  intros; reflexivity.
Qed.

Lemma not_false_true_iff :
  forall v, Js.not_false v = true <-> v <> VBool false.
Proof.
  intros v; split.
  - intros H E; subst v; discriminate H.
  - intros H; destruct v as [ | | [ | ] | | | | ]; try reflexivity.
    exfalso; apply H; reflexivity.
Qed.

Lemma get_None_nullish :
  forall v k, Js.get v k = None -> v = VUndefined \/ v = VNull.
Proof.
  intros v k H; destruct v; simpl in H; try discriminate H; auto.
Qed.

(** C10. [transformRequest] rebuilds the body and nothing else: headers,
    method, url, params and query of the result are those of the input,
    and the new body's [stream] is [false] when the incoming body's
    [stream] is exactly [false] and [true] in every other case.  The call
    fails (with a [TypeError]) only for a request whose body is
    [undefined] or [null]. *)
Theorem transformRequest_changes_only_body :
  forall req : OllamaTransformer.HttpRequest,
    match OllamaTransformer.transformRequest req with
    | Some req' =>
        OllamaTransformer.headers req' = OllamaTransformer.headers req /\
        OllamaTransformer.method req' = OllamaTransformer.method req /\
        OllamaTransformer.url req' = OllamaTransformer.url req /\
        OllamaTransformer.params req' = OllamaTransformer.params req /\
        OllamaTransformer.query req' = OllamaTransformer.query req /\
        (Js.get (OllamaTransformer.body req) "stream" = Some (VBool false) ->
         Js.get (OllamaTransformer.body req') "stream" = Some (VBool false)) /\
        (Js.get (OllamaTransformer.body req) "stream" <> Some (VBool false) ->
         Js.get (OllamaTransformer.body req') "stream" = Some (VBool true))
    | None =>
        OllamaTransformer.body req = VUndefined \/
        OllamaTransformer.body req = VNull
    end.
Proof.
  intros [b h m u p q]. unfold OllamaTransformer.transformRequest.
  cbn [OllamaTransformer.body].
  destruct b as [ | | bb | n | str | items | fields ]; cbn [Js.get and_then];
    [ left; reflexivity | right; reflexivity | idtac .. ];
    cbn [OllamaTransformer.headers OllamaTransformer.method
         OllamaTransformer.url OllamaTransformer.params
         OllamaTransformer.query OllamaTransformer.body Js.get];
    rewrite <- !app_assoc, lookup_stream_of_transformed;
    repeat split; try reflexivity; intros H;
    first
      [ injection H as H; rewrite H; reflexivity
      | match goal with
        | |- Some (VBool (Js.not_false ?s)) = _ =>
            replace (Js.not_false s) with true; [ reflexivity | ];
            symmetry; apply not_false_true_iff;
            intros E; apply H; rewrite E; reflexivity
        end ].
Qed.

(** The property at a request that asks for no streaming. *)
Lemma transformRequest_changes_only_body_witness :
  exists req',
    OllamaTransformer.transformRequest Samples.unstreamed = Some req' /\
    OllamaTransformer.headers req'
    = OllamaTransformer.headers Samples.unstreamed /\
    Js.get (OllamaTransformer.body req') "stream" = Some (VBool false).
Proof.
  pose proof (transformRequest_changes_only_body Samples.unstreamed) as H.
  destruct (OllamaTransformer.transformRequest Samples.unstreamed)
    as [ req' | ] eqn:E.
  - exists req'. destruct H as (Hh & _ & _ & _ & _ & Hs & _).
    split; [ reflexivity | ]. split; [ exact Hh | ].
    apply Hs. reflexivity.
  - vm_compute in E. discriminate E.
Defined.

(** *** The proxy's retry loop *)

Section Retry.

Import OllamaProxy.

Variable this : Proxy.
Variable upstream : Upstream.
Variable requestData : value.

Local Abbreviation attempt := (Spec.attempt this upstream requestData).

Lemma callOllama_fuel_responded :
  forall fuel rc s d,
    attempt rc = Responded s d ->
    callOllama_fuel (S fuel) this upstream requestData rc
    = Some {| settled := on_end s d; delays := [] |}.
Proof.
  intros fuel rc s d H. unfold Spec.attempt in H. cbn [callOllama_fuel].
  rewrite H. reflexivity.
Qed.

(** A transport failure with budget left: wait, then try again. *)
Lemma callOllama_fuel_transport_failure :
  forall fuel rc,
    transport_failure (attempt rc) = true ->
    (rc < maxRetries)%nat ->
    callOllama_fuel (S fuel) this upstream requestData rc
    = after (baseDelay * 2 ^ Z.of_nat rc)
        (callOllama_fuel fuel this upstream requestData (rc + 1)).
Proof.
  intros fuel rc H Hlt. unfold Spec.attempt in H. cbn [callOllama_fuel].
  apply Nat.ltb_lt in Hlt.
  destruct (upstream (request_options this) requestData rc)
    as [ s d | [ c | ] | | | ]; simpl in H; try discriminate H.
  rewrite Hlt. cbn [andb].
  apply orb_true_iff in H.
  replace (shouldRetry (RequestError (Some c))) with true; [ reflexivity | ].
  unfold shouldRetry, code_is; cbn [code].
  destruct H as [ H | H ]; rewrite H; cbn [orb]; try reflexivity.
  rewrite orb_true_r. reflexivity.
Qed.

(** A transport failure with no budget left is surfaced. *)
Lemma callOllama_fuel_exhausted :
  forall fuel rc,
    transport_failure (attempt rc) = true ->
    (maxRetries <= rc)%nat ->
    exists error,
      callOllama_fuel (S fuel) this upstream requestData rc
      = Some {| settled := Rejected error; delays := [] |}.
Proof.
  intros fuel rc H Hge. unfold Spec.attempt in H. cbn [callOllama_fuel].
  apply Nat.ltb_ge in Hge.
  destruct (upstream (request_options this) requestData rc)
    as [ s d | c | | | ]; simpl in H; try discriminate H.
  rewrite Hge; cbn [andb]; eexists; reflexivity.
Qed.

(** One unit of fuel per attempt that can still be made is enough, and
    more fuel changes nothing. *)
Lemma callOllama_fuel_enough :
  forall fuel rc,
    (maxRetries - rc < fuel)%nat ->
    exists o, callOllama_fuel fuel this upstream requestData rc = Some o.
Proof.
  induction fuel as [ | fuel IH ]; intros rc Hf; [ lia | ].
  cbn [callOllama_fuel].
  destruct (upstream (request_options this) requestData rc)
    as [ s d | c | | | ].
  - eexists; reflexivity.
  - destruct (rc <? maxRetries)%nat eqn:Hlt; cbn [andb];
      [ | eexists; reflexivity ].
    destruct (shouldRetry (RequestError c)); [ | eexists; reflexivity ].
    apply Nat.ltb_lt in Hlt.
    destruct (IH (rc + 1)%nat) as [ o Ho ]; [ lia | ].
    rewrite Ho. eexists; reflexivity.
  - destruct (rc <? maxRetries)%nat; eexists; reflexivity.
  - destruct (rc <? maxRetries)%nat eqn:Hlt; [ | eexists; reflexivity ].
    apply Nat.ltb_lt in Hlt.
    destruct (IH (rc + 1)%nat) as [ o Ho ]; [ lia | ].
    rewrite Ho. eexists; reflexivity.
  - eexists; reflexivity.
Qed.

Lemma callOllama_fuel_more :
  forall fuel fuel' rc o,
    callOllama_fuel fuel this upstream requestData rc = Some o ->
    (fuel <= fuel')%nat ->
    callOllama_fuel fuel' this upstream requestData rc = Some o.
Proof.
  induction fuel as [ | fuel IH ]; intros fuel' rc o H Hle;
    [ discriminate H | ].
  destruct fuel' as [ | fuel' ]; [ lia | ].
  cbn [callOllama_fuel] in *.
  destruct (upstream (request_options this) requestData rc)
    as [ s d | c | | | ].
  - exact H.
  - destruct ((rc <? maxRetries)%nat && shouldRetry (RequestError c));
      [ | exact H ].
    destruct (callOllama_fuel fuel this upstream requestData (rc + 1))
      as [ o' | ] eqn:E; [ | discriminate H ].
    rewrite (IH fuel' _ _ E); [ exact H | lia ].
  - exact H.
  - destruct (rc <? maxRetries)%nat; [ | exact H ].
    destruct (callOllama_fuel fuel this upstream requestData (rc + 1))
      as [ o' | ] eqn:E; [ | discriminate H ].
    rewrite (IH fuel' _ _ E); [ exact H | lia ].
  - exact H.
Qed.

Lemma callOllama_fuel_irrelevant :
  forall fuel fuel' rc,
    (maxRetries - rc < fuel)%nat ->
    (maxRetries - rc < fuel')%nat ->
    callOllama_fuel fuel this upstream requestData rc
    = callOllama_fuel fuel' this upstream requestData rc.
Proof.
  intros fuel fuel' rc H H'.
  destruct (callOllama_fuel_enough (S (maxRetries - rc)) rc) as [ o Ho ];
    [ lia | ].
  rewrite (callOllama_fuel_more _ fuel _ _ Ho) by lia.
  rewrite (callOllama_fuel_more _ fuel' _ _ Ho) by lia.
  reflexivity.
Qed.

(** The delays of a call that starts at retry count [rc] are those of
    the backoff schedule from [rc] on, and there are no more of them than
    retries are left. *)
Lemma callOllama_fuel_schedule :
  forall fuel rc o,
    callOllama_fuel fuel this upstream requestData rc = Some o ->
    delays o
    = map (fun k => baseDelay * 2 ^ Z.of_nat k) (seq rc (retries o))
    /\ (retries o <= maxRetries - rc)%nat.
Proof.
  assert (Hafter : forall rc fuel o,
             (rc < maxRetries)%nat ->
             (forall o',
                 callOllama_fuel fuel this upstream requestData (rc + 1)
                 = Some o' ->
                 delays o'
                 = map (fun k => baseDelay * 2 ^ Z.of_nat k)
                     (seq (rc + 1) (retries o'))
                 /\ (retries o' <= maxRetries - (rc + 1))%nat) ->
             after (baseDelay * 2 ^ Z.of_nat rc)
               (callOllama_fuel fuel this upstream requestData (rc + 1))
             = Some o ->
             delays o
             = map (fun k => baseDelay * 2 ^ Z.of_nat k) (seq rc (retries o))
             /\ (retries o <= maxRetries - rc)%nat).
  { intros rc fuel o Hlt IH H.
    destruct (callOllama_fuel fuel this upstream requestData (rc + 1))
      as [ o' | ]; [ | discriminate H ].
    destruct (IH o' eq_refl) as [ Hd Hn ].
    injection H as <-. unfold retries in *. cbn [delays List.length].
    remember (List.length (delays o')) as n eqn:En.
    cbn [seq map]. rewrite Hd, Nat.add_1_r.
    split; [ reflexivity | unfold maxRetries in *; lia ]. }
  induction fuel as [ | fuel IH ]; intros rc o H; [ discriminate H | ].
  cbn [callOllama_fuel] in H.
  destruct (upstream (request_options this) requestData rc)
    as [ s d | c | | | ].
  - injection H as <-. split; [ reflexivity | apply Nat.le_0_l ].
  - destruct (rc <? maxRetries)%nat eqn:Hlt; cbn [andb] in H.
    + destruct (shouldRetry (RequestError c)).
      * apply Nat.ltb_lt in Hlt. eapply Hafter; eauto.
      * injection H as <-. split; [ reflexivity | apply Nat.le_0_l ].
    + injection H as <-. split; [ reflexivity | apply Nat.le_0_l ].
  - destruct (rc <? maxRetries)%nat eqn:Hlt.
    + apply Nat.ltb_lt in Hlt. injection H as <-.
      unfold retries. cbn [delays List.length seq map].
      split; [ reflexivity | unfold maxRetries in *; lia ].
    + injection H as <-. split; [ reflexivity | apply Nat.le_0_l ].
  - destruct (rc <? maxRetries)%nat eqn:Hlt.
    + apply Nat.ltb_lt in Hlt. eapply Hafter; eauto.
    + injection H as <-. split; [ reflexivity | apply Nat.le_0_l ].
  - injection H as <-. split; [ reflexivity | apply Nat.le_0_l ].
Qed.

(** Every call has an outcome (which may be a promise that stays
    pending). *)
Lemma callOllama_has_outcome :
  forall rc, exists o, callOllama this upstream requestData rc = Some o.
Proof.
  intros rc. apply callOllama_fuel_enough. unfold maxRetries. lia.
Qed.

Lemma callOllama_transport_failure :
  forall rc,
    transport_failure (attempt rc) = true ->
    (rc < maxRetries)%nat ->
    callOllama this upstream requestData rc
    = after (baseDelay * 2 ^ Z.of_nat rc)
        (callOllama this upstream requestData (rc + 1)).
Proof.
  intros rc H Hlt. unfold callOllama.
  rewrite (callOllama_fuel_transport_failure _ _ H Hlt).
  f_equal. apply callOllama_fuel_irrelevant; unfold maxRetries in *; lia.
Qed.

Lemma callOllama_responded :
  forall rc s d,
    attempt rc = Responded s d ->
    callOllama this upstream requestData rc
    = Some {| settled := on_end s d; delays := [] |}.
Proof.
  intros rc s d H. apply callOllama_fuel_responded. exact H.
Qed.

End Retry.

(** C1, as stated, fails.  A failed DNS lookup that is reported with the
    code [EAI_AGAIN] is not retried at all.  A daemon that never answers
    is not tried four times: the call is rejected with the [ECONNRESET]
    error right after the first timeout, when the one timer of 1 s has
    just been set.  And the call to a daemon that refuses, then times
    out, then would answer, is rejected too. *)
Lemma callOllama_gives_up_on_timeout_and_on_other_codes :
  OllamaProxy.callOllama OllamaProxy.default_proxy Samples.unresolved
    Samples.generate 0
  = Some {| OllamaProxy.settled :=
              OllamaProxy.Rejected (OllamaProxy.RequestError (Some "EAI_AGAIN"));
            OllamaProxy.delays := [] |}
  /\
  OllamaProxy.callOllama OllamaProxy.default_proxy Samples.silent
    Samples.generate 0
  = Some {| OllamaProxy.settled :=
              OllamaProxy.Rejected (OllamaProxy.RequestError (Some "ECONNRESET"));
            OllamaProxy.delays := [1000] |}
  /\
  OllamaProxy.callOllama OllamaProxy.default_proxy Samples.flaky
    Samples.generate 0
  = Some {| OllamaProxy.settled :=
              OllamaProxy.Rejected (OllamaProxy.RequestError (Some "ECONNRESET"));
            OllamaProxy.delays := [1000; 2000] |}.
Proof.
  repeat split.
Qed.

(** C1, amended. An attempt that fails with an ['error'] of code
    [ECONNREFUSED] (connection refused) or [ENOTFOUND] (failed DNS
    lookup) is retried while fewer than 3 retries have been made, after
    a delay of 1000 * 2^retryCount ms (1 s, 2 s, 4 s); with the budget
    used up the failure is surfaced.  No call sets more than 3 timers,
    and their delays are the first of 1 s, 2 s, 4 s.  A daemon that
    fails twice in this way and then answers makes the call resolve
    after exactly 2 retries, delayed 1 s and 2 s; one that always fails
    in this way makes it reject after exactly 3 retries. *)
Theorem callOllama_retries_transport_failures :
  forall (this : OllamaProxy.Proxy) (upstream : OllamaProxy.Upstream)
         (requestData : value),
    let attempt := Spec.attempt this upstream requestData in
    let call := OllamaProxy.callOllama this upstream requestData in
    (forall rc,
        transport_failure (attempt rc) = true -> (rc < 3)%nat ->
        call rc = OllamaProxy.after (1000 * 2 ^ Z.of_nat rc) (call (rc + 1)%nat))
    /\
    (forall rc,
        transport_failure (attempt rc) = true -> (3 <= rc)%nat ->
        exists error,
          call rc = Some {| OllamaProxy.settled := OllamaProxy.Rejected error;
                            OllamaProxy.delays := [] |})
    /\
    (exists o,
        call 0%nat = Some o /\
        (OllamaProxy.retries o <= 3)%nat /\
        OllamaProxy.delays o
        = firstn (OllamaProxy.retries o) [1000; 2000; 4000])
    /\
    (forall v,
        transport_failure (attempt 0%nat) = true ->
        transport_failure (attempt 1%nat) = true ->
        attempt 2%nat = OllamaProxy.Responded 200 (OllamaProxy.Json v) ->
        completion v = true ->
        call 0%nat
        = Some {| OllamaProxy.settled := OllamaProxy.Resolved v;
                  OllamaProxy.delays := [1000; 2000] |})
    /\
    ((forall n, transport_failure (attempt n) = true) ->
     exists error o,
       call 0%nat = Some o /\
       o = {| OllamaProxy.settled := OllamaProxy.Rejected error;
              OllamaProxy.delays := [1000; 2000; 4000] |} /\
       OllamaProxy.retries o = 3%nat).
Proof.
  intros this upstream requestData attempt call.
  assert (Hstep : forall rc,
             transport_failure (attempt rc) = true -> (rc < 3)%nat ->
             call rc
             = OllamaProxy.after (1000 * 2 ^ Z.of_nat rc) (call (rc + 1)%nat)).
  { intros rc H Hlt. apply callOllama_transport_failure; assumption. }
  assert (Hstop : forall rc,
             transport_failure (attempt rc) = true -> (3 <= rc)%nat ->
             exists error,
               call rc
               = Some {| OllamaProxy.settled := OllamaProxy.Rejected error;
                         OllamaProxy.delays := [] |}).
  { intros rc H Hge. apply callOllama_fuel_exhausted; assumption. }
  split; [ exact Hstep | ]. split; [ exact Hstop | ]. split; [ | split ].
  - destruct (callOllama_has_outcome this upstream requestData 0) as [ o Ho ].
    exists o. split; [ exact Ho | ].
    destruct (callOllama_fuel_schedule _ _ _ _ _ _ Ho) as [ Hd Hn ].
    unfold OllamaProxy.maxRetries in Hn. split; [ lia | ].
    rewrite Hd.
    destruct (OllamaProxy.retries o) as [ | [ | [ | [ | n ] ] ] ];
      [ reflexivity .. | lia ].
  - intros v H0 H1 H2 Hv.
    rewrite (Hstep 0%nat H0) by lia. cbn [Nat.add].
    rewrite (Hstep 1%nat H1) by lia. cbn [Nat.add]. subst call.
    rewrite (callOllama_responded _ _ _ _ _ _ H2).
    unfold OllamaProxy.on_end, OllamaProxy.JSON_parse. cbn [Z.eqb Pos.eqb].
    unfold completion in Hv.
    destruct (Js.get v "error") as [ error | ]; [ | discriminate Hv ].
    apply negb_true_iff in Hv. rewrite Hv. reflexivity.
  - intros Hall.
    destruct (Hstop 3%nat (Hall 3%nat)) as [ error He ]; [ lia | ].
    exists error. eexists. split; [ | split; [ reflexivity | reflexivity ] ].
    rewrite (Hstep 0%nat (Hall 0%nat)) by lia. cbn [Nat.add].
    rewrite (Hstep 1%nat (Hall 1%nat)) by lia. cbn [Nat.add].
    rewrite (Hstep 2%nat (Hall 2%nat)) by lia. cbn [Nat.add].
    rewrite He. reflexivity.
Qed.

(** The retry schedule on a daemon that is reached at the third attempt
    and on one that is never reached. *)
Lemma callOllama_retries_transport_failures_witness :
  OllamaProxy.callOllama OllamaProxy.default_proxy Samples.recovering
    Samples.generate 0
  = Some {| OllamaProxy.settled := OllamaProxy.Resolved Samples.completion_body;
            OllamaProxy.delays := [1000; 2000] |}
  /\
  exists error,
    OllamaProxy.callOllama OllamaProxy.default_proxy Samples.unreachable
      Samples.generate 0
    = Some {| OllamaProxy.settled := OllamaProxy.Rejected error;
              OllamaProxy.delays := [1000; 2000; 4000] |}.
Proof.
  split.
  - apply (proj1 (proj2 (proj2 (proj2
      (callOllama_retries_transport_failures
         OllamaProxy.default_proxy Samples.recovering Samples.generate)))));
      reflexivity.
  - destruct (proj2 (proj2 (proj2 (proj2
      (callOllama_retries_transport_failures
         OllamaProxy.default_proxy Samples.unreachable Samples.generate))))
      (fun _ => eq_refl)) as (error & o & Hcall & Ho & _).
    exists error. rewrite Hcall, Ho. reflexivity.
Defined.

(** *** Bodies that carry an [error] *)




(** *** Server errors *)

Lemma callOllama_surfaces_other_status :
  forall (this : OllamaProxy.Proxy) (upstream : OllamaProxy.Upstream)
         (requestData : value) (retryCount : nat) (s : Z)
         (data : OllamaProxy.Data),
    Spec.attempt this upstream requestData retryCount
    = OllamaProxy.Responded s data ->
    s <> 200 ->
    OllamaProxy.callOllama this upstream requestData retryCount
    = Some {| OllamaProxy.settled :=
                OllamaProxy.Rejected (OllamaProxy.ApiError s data);
              OllamaProxy.delays := [] |}.
Proof.
  intros this upstream requestData retryCount s data Hev Hs.
  rewrite (callOllama_responded _ _ _ _ _ _ Hev).
  unfold OllamaProxy.on_end. apply Z.eqb_neq in Hs. rewrite Hs. reflexivity.
Qed.

Lemma shouldRetry_server_error :
  forall (s : Z) (data : OllamaProxy.Data),
    500 <= s -> OllamaProxy.shouldRetry (OllamaProxy.ApiError s data) = true.
Proof.
  intros s data Hs. unfold OllamaProxy.shouldRetry, OllamaProxy.code_is.
  cbn [OllamaProxy.code OllamaProxy.statusCode orb].
  replace (s =? 0) with false by (symmetry; apply Z.eqb_neq; lia).
  replace (500 <=? s) with true by (symmetry; apply Z.leb_le; lia).
  reflexivity.
Qed.

(** C3 does not hold of the code. A daemon that answers the first attempt
    with status 500 makes [callOllama] reject at once, with no retry and
    no delay, although [shouldRetry] accepts the error it rejects with:
    the handler of a response never consults [shouldRetry]. *)
Theorem callOllama_does_not_retry_status_500 :
  OllamaProxy.callOllama OllamaProxy.default_proxy
    (Samples.answering 500 Samples.server_error) Samples.generate 0
  = Some {| OllamaProxy.settled :=
              OllamaProxy.Rejected
                (OllamaProxy.ApiError 500 Samples.server_error);
            OllamaProxy.delays := [] |}
  /\ OllamaProxy.shouldRetry (OllamaProxy.ApiError 500 Samples.server_error)
     = true.
Proof.
  split; reflexivity.
Qed.

(** *** Request translation *)

Lemma strip_prefix_Some :
  forall p s rest,
    OllamaProxy.strip_prefix p s = Some rest <-> s = (p ++ rest)%string.
Proof.
  induction p as [ | a p IH ]; intros s rest; cbn [OllamaProxy.strip_prefix].
  - split; intros H; [ injection H as -> | cbn in H; subst s ]; reflexivity.
  - destruct s as [ | b s ]; cbn [String.append].
    + split; intros H; discriminate H.
    + destruct (Ascii.eqb a b) eqn:Eab.
      * apply Ascii.eqb_eq in Eab; subst b. rewrite IH.
        split; intros H; [ subst s; reflexivity | injection H as H; exact H ].
      * apply Ascii.eqb_neq in Eab.
        split; intros H; [ discriminate H | injection H as H _ ].
        exfalso; apply Eab; symmetry; exact H.
Qed.

Lemma replace_leading_prefixed :
  forall p rest, OllamaProxy.replace_leading p (p ++ rest) = rest.
Proof.
  intros p rest. unfold OllamaProxy.replace_leading.
  rewrite (proj2 (strip_prefix_Some p (p ++ rest) rest) eq_refl). reflexivity.
Qed.

Lemma replace_leading_other :
  forall p s,
    (forall rest, s <> (p ++ rest)%string) ->
    OllamaProxy.replace_leading p s = s.
Proof.
  intros p s H. unfold OllamaProxy.replace_leading.
  destruct (OllamaProxy.strip_prefix p s) as [ rest | ] eqn:E;
    [ | reflexivity ].
  apply strip_prefix_Some in E. exfalso; exact (H rest E).
Qed.

Lemma convertOpenAIToOllama_model :
  forall req : OllamaProxy.ChatRequest,
    Js.get (OllamaProxy.convertOpenAIToOllama req) "model"
    = Some (VStr (OllamaProxy.replace_leading "ollama," (OllamaProxy.model req))).
Proof.
  intros req; reflexivity.
Qed.

(** C9. The model name sent to the daemon is the request's model name
    without one leading ["ollama,"]: a name [ollama,rest] becomes [rest],
    whatever [rest] holds, and a name that does not begin with
    ["ollama,"] is sent as it is; so the name sent is always the given
    name or the given name less exactly that prefix. *)
Theorem convertOpenAIToOllama_strips_one_leading_prefix :
  forall req : OllamaProxy.ChatRequest,
    let sent := Js.get (OllamaProxy.convertOpenAIToOllama req) "model" in
    (forall rest,
        OllamaProxy.model req = ("ollama," ++ rest)%string ->
        sent = Some (VStr rest))
    /\
    ((forall rest, OllamaProxy.model req <> ("ollama," ++ rest)%string) ->
     sent = Some (VStr (OllamaProxy.model req)))
    /\
    (exists name,
        sent = Some (VStr name) /\
        (OllamaProxy.model req = name \/
         OllamaProxy.model req = ("ollama," ++ name)%string)).
Proof.
  intros req sent. subst sent. rewrite convertOpenAIToOllama_model.
  split; [ | split ].
  - intros rest ->. rewrite replace_leading_prefixed. reflexivity.
  - intros H. rewrite replace_leading_other by exact H. reflexivity.
  - eexists; split; [ reflexivity | ].
    unfold OllamaProxy.replace_leading.
    destruct (OllamaProxy.strip_prefix "ollama," (OllamaProxy.model req))
      as [ rest | ] eqn:E; [ right | left; reflexivity ].
    apply strip_prefix_Some in E. exact E.
Qed.

(** A doubled prefix loses its first copy only; a prefix that is not at
    the start stays. *)
Lemma convertOpenAIToOllama_strips_one_leading_prefix_witness :
  Js.get (OllamaProxy.convertOpenAIToOllama
            (Samples.chat_with "ollama,ollama,llama3")) "model"
  = Some (VStr "ollama,llama3")
  /\
  Js.get (OllamaProxy.convertOpenAIToOllama
            (Samples.chat_with "my-ollama,llama3")) "model"
  = Some (VStr "my-ollama,llama3").
Proof.
  split.
  - apply (proj1 (convertOpenAIToOllama_strips_one_leading_prefix
                    (Samples.chat_with "ollama,ollama,llama3"))
             "ollama,llama3").
    reflexivity.
  - apply (proj1 (proj2 (convertOpenAIToOllama_strips_one_leading_prefix
                           (Samples.chat_with "my-ollama,llama3")))).
    intros rest H. discriminate H.
Defined.

Lemma convertOpenAIToOllama_prompt :
  forall req : OllamaProxy.ChatRequest,
    Js.get (OllamaProxy.convertOpenAIToOllama req) "prompt"
    = Some (VStr (String.concat OllamaProxy.newline
                    (map (fun msg =>
                            OllamaProxy.role msg ++ ": " ++ OllamaProxy.content msg)%string
                         (OllamaProxy.messages req)))).
Proof.
  intros req; reflexivity.
Qed.

(** The daemon is asked through the options of [request_options] only:
    two daemons that agree on the generate endpoint are
    indistinguishable to [callOllama]. *)
Lemma callOllama_fuel_generate_endpoint :
  forall (this : OllamaProxy.Proxy) (up up' : OllamaProxy.Upstream)
         (requestData : value),
    (forall options data n,
        OllamaProxy.path options = "/api/generate" ->
        up options data n = up' options data n) ->
    forall fuel retryCount,
      OllamaProxy.callOllama_fuel fuel this up requestData retryCount
      = OllamaProxy.callOllama_fuel fuel this up' requestData retryCount.
Proof.
  intros this up up' requestData Hagree.
  induction fuel as [ | fuel IH ]; intros retryCount; [ reflexivity | ].
  cbn [OllamaProxy.callOllama_fuel].
  rewrite <- (Hagree (OllamaProxy.request_options this)) by reflexivity.
  destruct (up (OllamaProxy.request_options this) requestData retryCount);
    rewrite ?IH; reflexivity.
Qed.

(** C4, as stated, fails: the daemon request made from a two-message
    conversation has no [messages] array; it has a [prompt] string that
    holds both messages; and it goes to the generate endpoint, not to
    the chat endpoint. *)
Lemma convertOpenAIToOllama_flattens_sample :
  Js.get Samples.generate "messages" = Some VUndefined /\
  Js.get Samples.generate "messages"
  <> Some (VArr (map message_value (OllamaProxy.messages Samples.chat))) /\
  Js.get Samples.generate "prompt"
  = Some (VStr ("system: Be brief." ++ OllamaProxy.newline ++ "user: hi")) /\
  OllamaProxy.path (OllamaProxy.request_options OllamaProxy.default_proxy)
  = "/api/generate" /\
  OllamaProxy.path (OllamaProxy.request_options OllamaProxy.default_proxy)
  <> OllamaTransformer.endpoint.
Proof.
  repeat split; try reflexivity; intros H; discriminate H.
Qed.

(** C4, amended. The proxy flattens the conversation: the daemon request
    has a [prompt] string, one line [role: content] per message in the
    order of the request, the lines joined by a newline, and no
    [messages] property; and [callOllama] sends it to the daemon's
    generate endpoint [/api/generate] on every attempt. *)
Theorem convertOpenAIToOllama_flattens_to_prompt :
  forall (req : OllamaProxy.ChatRequest) (this : OllamaProxy.Proxy),
    let sent := OllamaProxy.convertOpenAIToOllama req in
    Js.get sent "prompt"
    = Some (VStr (String.concat OllamaProxy.newline
                    (map (fun msg =>
                            OllamaProxy.role msg ++ ": " ++ OllamaProxy.content msg)%string
                         (OllamaProxy.messages req))))
    /\ Js.get sent "messages" = Some VUndefined
    /\ has_field "messages" sent = false
    /\ OllamaProxy.path (OllamaProxy.request_options this) = "/api/generate"
    /\ (forall (up up' : OllamaProxy.Upstream) (retryCount : nat),
           (forall options data n,
               OllamaProxy.path options = "/api/generate" ->
               up options data n = up' options data n) ->
           OllamaProxy.callOllama this up sent retryCount
           = OllamaProxy.callOllama this up' sent retryCount).
Proof.
  intros req this sent.
  split; [ apply convertOpenAIToOllama_prompt | ].
  split; [ reflexivity | ]. split; [ reflexivity | ].
  split; [ reflexivity | ].
  intros up up' retryCount Hagree.
  apply callOllama_fuel_generate_endpoint. exact Hagree.
Qed.

(** A daemon that serves only the chat endpoint is, to the proxy, the
    daemon that refuses every connection. *)
Lemma convertOpenAIToOllama_flattens_to_prompt_witness :
  OllamaProxy.callOllama OllamaProxy.default_proxy Samples.chat_only
    Samples.generate 0
  = OllamaProxy.callOllama OllamaProxy.default_proxy Samples.refusing
      Samples.generate 0.
Proof.
  apply (proj2 (proj2 (proj2 (proj2
           (convertOpenAIToOllama_flattens_to_prompt
              Samples.chat OllamaProxy.default_proxy))))).
  intros options data n Hpath. unfold Samples.chat_only.
  rewrite Hpath. reflexivity.
Defined.

(** *** Sampling parameters *)

Lemma or_supplied :
  forall n d,
    Js.truthy_number n = true ->
    Js.or (OllamaProxy.number_prop (Some n)) d = VNum n.
Proof.
  intros n d H. unfold Js.or. cbn [OllamaProxy.number_prop Js.truthy].
  rewrite H. reflexivity.
Qed.

Lemma float_zero_is_not_default :
  VNum 0.7 <> VNum 0.
Proof.
  intros H.
  apply (f_equal (fun v => match v with
                           | VNum x => PrimFloat.eqb x 0%float
                           | _ => false
                           end)) in H.
  vm_compute in H. discriminate H.
Qed.

(** C5, as stated, fails: the sample request supplies a temperature of 0
    and no [top_p]; the daemon request carries the temperature 0.7 and a
    [top_p] of 0.9. *)
Lemma convertOpenAIToOllama_defaults_sample :
  OllamaProxy.temperature Samples.chat = Some 0%float /\
  daemon_option Samples.generate "temperature" = Some (VNum 0.7) /\
  daemon_option Samples.generate "temperature" <> Some (VNum 0) /\
  OllamaProxy.top_p Samples.chat = None /\
  daemon_option Samples.generate "top_p" = Some (VNum 0.9).
Proof.
  repeat split.
  intros H. apply float_zero_is_not_default.
  exact (f_equal (fun o => match o with Some v => v | None => VNull end) H).
Qed.

(** C5, amended. A sampling parameter supplied with a value other than 0
    is sent unchanged, [max_tokens] as [options.num_predict],
    [temperature] as [options.temperature] and [top_p] as
    [options.top_p]; for a parameter the request does not supply the
    proxy sends its default: 100, 0.7 and 0.9. *)
Theorem convertOpenAIToOllama_sampling_parameters :
  forall req : OllamaProxy.ChatRequest,
    let sent := OllamaProxy.convertOpenAIToOllama req in
    (forall n,
        OllamaProxy.max_tokens req = Some n -> Js.truthy_number n = true ->
        daemon_option sent "num_predict" = Some (VNum n))
    /\
    (forall n,
        OllamaProxy.temperature req = Some n -> Js.truthy_number n = true ->
        daemon_option sent "temperature" = Some (VNum n))
    /\
    (forall n,
        OllamaProxy.top_p req = Some n -> Js.truthy_number n = true ->
        daemon_option sent "top_p" = Some (VNum n))
    /\
    (OllamaProxy.max_tokens req = None ->
     daemon_option sent "num_predict" = Some (VNum 100))
    /\
    (OllamaProxy.temperature req = None ->
     daemon_option sent "temperature" = Some (VNum 0.7))
    /\
    (OllamaProxy.top_p req = None ->
     daemon_option sent "top_p" = Some (VNum 0.9)).
Proof.
  intros req sent. subst sent.
  unfold daemon_option, OllamaProxy.convertOpenAIToOllama.
  cbv beta iota delta [Js.get Js.lookup String.eqb Ascii.eqb Bool.eqb].
  repeat split.
  - intros n -> H. rewrite (or_supplied _ _ H). reflexivity.
  - intros n -> H. rewrite (or_supplied _ _ H). reflexivity.
  - intros n -> H. rewrite (or_supplied _ _ H). reflexivity.
  - intros ->. reflexivity.
  - intros ->. reflexivity.
  - intros ->. reflexivity.
Qed.

(** The sample request: 64 output tokens asked for, no [top_p] given. *)
Lemma convertOpenAIToOllama_sampling_parameters_witness :
  daemon_option Samples.generate "num_predict" = Some (VNum 64) /\
  daemon_option Samples.generate "top_p" = Some (VNum 0.9).
Proof.
  split.
  - apply (proj1 (convertOpenAIToOllama_sampling_parameters Samples.chat));
      reflexivity.
  - apply (proj2 (proj2 (proj2 (proj2 (proj2
             (convertOpenAIToOllama_sampling_parameters Samples.chat))))));
      reflexivity.
Defined.

(** *** Response translation *)

(** C6, as stated, fails: the daemon's reason [load] is passed on as the
    finish reason. *)
Lemma convertOllamaToOpenAI_passes_load_reason :
  first_finish_reason
    (OllamaProxy.convertOllamaToOpenAI 1700000000123 1700000000124
       Samples.loaded Samples.chat)
  = Some "load"
  /\ "load" <> "stop" /\ "load" <> "length".
Proof.
  repeat split; intros H; discriminate H.
Qed.

(** C6, amended. The finish reason of the first choice is the daemon's
    [done_reason] itself when the daemon gives one that is not empty, so
    [stop] stays [stop] and [length] stays [length], and it is [stop]
    when the daemon gives none or an empty one. *)
Theorem convertOllamaToOpenAI_finish_reason :
  forall (now_id now_created : Z) (ollamaResponse : OllamaProxy.OllamaResponse)
         (originalRequest : OllamaProxy.ChatRequest),
    let reason :=
      first_finish_reason
        (OllamaProxy.convertOllamaToOpenAI now_id now_created
           ollamaResponse originalRequest) in
    (forall s,
        OllamaProxy.done_reason ollamaResponse = Some s -> s <> "" ->
        reason = Some s)
    /\ (OllamaProxy.done_reason ollamaResponse = Some "stop" ->
        reason = Some "stop")
    /\ (OllamaProxy.done_reason ollamaResponse = Some "length" ->
        reason = Some "length")
    /\ (OllamaProxy.done_reason ollamaResponse = None ->
        reason = Some "stop")
    /\ (OllamaProxy.done_reason ollamaResponse = Some "" ->
        reason = Some "stop").
Proof.
  intros now_id now_created ollamaResponse originalRequest reason.
  subst reason. unfold first_finish_reason, OllamaProxy.convertOllamaToOpenAI.
  cbn [OllamaProxy.choices hd_error option_map OllamaProxy.finish_reason].
  repeat split.
  - intros s -> Hs. unfold OllamaProxy.string_or.
    apply String.eqb_neq in Hs. rewrite Hs. reflexivity.
  - intros ->. reflexivity.
  - intros ->. reflexivity.
  - intros ->. reflexivity.
  - intros ->. reflexivity.
Qed.

(** A generation cut at the token limit. *)
Lemma convertOllamaToOpenAI_finish_reason_witness :
  first_finish_reason
    (OllamaProxy.convertOllamaToOpenAI 1700000000123 1700000000124
       Samples.generated Samples.chat)
  = Some "length".
Proof.
  apply (proj1 (proj2 (proj2
           (convertOllamaToOpenAI_finish_reason 1700000000123 1700000000124
              Samples.generated Samples.chat))));
    reflexivity.
Defined.

(** C8. In the usage of a converted response the total is the sum (the
    sum of JavaScript numbers) of the prompt and the completion tokens;
    the prompt tokens are the daemon's [prompt_eval_count] and the
    completion tokens its [eval_count], each taken as 0 when it is
    missing. *)
Theorem convertOllamaToOpenAI_usage_total :
  forall (now_id now_created : Z) (ollamaResponse : OllamaProxy.OllamaResponse)
         (originalRequest : OllamaProxy.ChatRequest),
    let u :=
      OllamaProxy.usage
        (OllamaProxy.convertOllamaToOpenAI now_id now_created
           ollamaResponse originalRequest) in
    OllamaProxy.total_tokens u
    = (OllamaProxy.prompt_tokens u + OllamaProxy.completion_tokens u)%float
    /\ (OllamaProxy.prompt_eval_count ollamaResponse = None ->
        OllamaProxy.prompt_tokens u = 0%float)
    /\ (OllamaProxy.eval_count ollamaResponse = None ->
        OllamaProxy.completion_tokens u = 0%float)
    /\ (forall n,
           OllamaProxy.prompt_eval_count ollamaResponse = Some n ->
           Js.truthy_number n = true ->
           OllamaProxy.prompt_tokens u = n)
    /\ (forall n,
           OllamaProxy.eval_count ollamaResponse = Some n ->
           Js.truthy_number n = true ->
           OllamaProxy.completion_tokens u = n).
Proof.
  intros now_id now_created ollamaResponse originalRequest u. subst u.
  cbn [OllamaProxy.convertOllamaToOpenAI OllamaProxy.usage
       OllamaProxy.total_tokens OllamaProxy.prompt_tokens
       OllamaProxy.completion_tokens].
  repeat split.
  - intros ->. reflexivity.
  - intros ->. reflexivity.
  - intros n -> H. cbn [OllamaProxy.number_or]. rewrite H. reflexivity.
  - intros n -> H. cbn [OllamaProxy.number_or]. rewrite H. reflexivity.
Qed.

(** Twelve prompt tokens and no completion count: a total of twelve. *)
Lemma convertOllamaToOpenAI_usage_total_witness :
  OllamaProxy.usage
    (OllamaProxy.convertOllamaToOpenAI 1700000000123 1700000000124
       Samples.generated Samples.chat)
  = {| OllamaProxy.prompt_tokens := 12;
       OllamaProxy.completion_tokens := 0;
       OllamaProxy.total_tokens := 12 |}.
Proof.
  pose proof (convertOllamaToOpenAI_usage_total 1700000000123 1700000000124
                Samples.generated Samples.chat) as (Htotal & _ & Hc & Hp & _).
  specialize (Hc eq_refl). specialize (Hp 12%float eq_refl eq_refl).
  destruct (OllamaProxy.usage
              (OllamaProxy.convertOllamaToOpenAI 1700000000123 1700000000124
                 Samples.generated Samples.chat)) as [ p c t ].
  cbn [OllamaProxy.total_tokens OllamaProxy.prompt_tokens
       OllamaProxy.completion_tokens] in *.
  subst p c t. reflexivity.
Defined.

(** ** Further properties of the proxy *)

Section Deciding.

Import OllamaProxy Terms.

Variable this : Proxy.
Variable upstream : Upstream.
Variable requestData : value.

Local Abbreviation attempt := (Spec.attempt this upstream requestData).

(** An attempt that does not pass the promise on, or that finds the
    budget used up, decides the call. *)
Lemma callOllama_fuel_last :
  forall fuel rc,
    passes_on (attempt rc) = false \/ (maxRetries <= rc)%nat ->
    callOllama_fuel (S fuel) this upstream requestData rc
    = Some {| settled := ends rc (attempt rc);
              delays := map (fun k => baseDelay * 2 ^ Z.of_nat k)
                          (seq rc (orphan_timers rc (attempt rc))) |}.
Proof.
  intros fuel rc H. unfold Spec.attempt in *. cbn [callOllama_fuel].
  destruct (upstream (request_options this) requestData rc)
    as [ s d | c | | | ]; cbn [passes_on ends orphan_timers seq map] in *.
  - reflexivity.
  - destruct H as [ H | H ].
    + rewrite H, andb_false_r. reflexivity.
    + apply Nat.ltb_ge in H. rewrite H. reflexivity.
  - destruct (rc <? maxRetries)%nat; reflexivity.
  - destruct H as [ H | H ]; [ discriminate H | ].
    apply Nat.ltb_ge in H. rewrite H. reflexivity.
  - reflexivity.
Qed.

(** An attempt that passes the promise on, with budget left, is followed
    by the next one. *)
Lemma callOllama_fuel_next :
  forall fuel rc,
    passes_on (attempt rc) = true -> (rc < maxRetries)%nat ->
    callOllama_fuel (S fuel) this upstream requestData rc
    = after (baseDelay * 2 ^ Z.of_nat rc)
        (callOllama_fuel fuel this upstream requestData (rc + 1)).
Proof.
  intros fuel rc H Hlt. unfold Spec.attempt in *. cbn [callOllama_fuel].
  apply Nat.ltb_lt in Hlt.
  destruct (upstream (request_options this) requestData rc)
    as [ s d | c | | | ]; cbn [passes_on] in H; try discriminate H.
  - rewrite Hlt, H. reflexivity.
  - rewrite Hlt. reflexivity.
Qed.

(** The attempts of a call: [n] of them pass the promise on within the
    budget, and the next one decides the call. *)
Lemma callOllama_fuel_decided :
  forall fuel rc o,
    callOllama_fuel fuel this upstream requestData rc = Some o ->
    exists n,
      (forall k, (rc <= k < rc + n)%nat ->
                 passes_on (attempt k) = true /\ (k < maxRetries)%nat)
      /\ (passes_on (attempt (rc + n)) = false
          \/ (maxRetries <= rc + n)%nat)
      /\ settled o = ends (rc + n) (attempt (rc + n))
      /\ retries o = (n + orphan_timers (rc + n) (attempt (rc + n)))%nat.
Proof.
  induction fuel as [ | fuel IH ]; intros rc o H; [ discriminate H | ].
  destruct (passes_on (attempt rc)) eqn:Hr;
    [ destruct (Nat.lt_ge_cases rc maxRetries) as [ Hlt | Hge ] | ].
  - rewrite (callOllama_fuel_next _ _ Hr Hlt) in H.
    destruct (callOllama_fuel fuel this upstream requestData (rc + 1))
      as [ o' | ] eqn:E; [ | discriminate H ].
    destruct (IH _ _ E) as (n & Hbefore & Hstop & Hlast & Hn).
    injection H as <-. exists (S n).
    replace (rc + S n)%nat with (rc + 1 + n)%nat by lia.
    unfold retries in *. cbn [delays settled List.length].
    split; [ | split; [ exact Hstop | split; [ exact Hlast | lia ] ] ].
    intros k Hk. destruct (Nat.eq_dec k rc) as [ -> | Hne ].
    + split; assumption.
    + apply Hbefore. lia.
  - rewrite (callOllama_fuel_last _ _ (or_intror Hge)) in H.
    injection H as <-. exists 0%nat. rewrite Nat.add_0_r.
    unfold retries. cbn [delays settled]. rewrite length_map, length_seq.
    split; [ intros k Hk; lia | ].
    split; [ right; exact Hge | split; reflexivity ].
  - rewrite (callOllama_fuel_last _ _ (or_introl Hr)) in H.
    injection H as <-. exists 0%nat. rewrite Nat.add_0_r.
    unfold retries. cbn [delays settled]. rewrite length_map, length_seq.
    split; [ intros k Hk; lia | ].
    split; [ left; exact Hr | split; reflexivity ].
Qed.

(** Attempts beyond the budget are never looked at, whatever the fuel. *)
Lemma callOllama_fuel_window :
  forall (upstream' : Upstream) fuel rc,
    (forall n, (rc <= n <= Nat.max rc maxRetries)%nat ->
               attempt n = Spec.attempt this upstream' requestData n) ->
    callOllama_fuel fuel this upstream requestData rc
    = callOllama_fuel fuel this upstream' requestData rc.
Proof.
  intros upstream'.
  induction fuel as [ | fuel IH ]; intros rc Hagree; [ reflexivity | ].
  pose proof (Hagree rc ltac:(lia)) as Hrc. unfold Spec.attempt in Hrc.
  cbn [callOllama_fuel]. rewrite <- Hrc.
  destruct (upstream (request_options this) requestData rc)
    as [ s d | c | | | ].
  - reflexivity.
  - destruct (rc <? maxRetries)%nat eqn:Hlt; cbn [andb]; [ | reflexivity ].
    destruct (shouldRetry (RequestError c)); [ | reflexivity ].
    apply Nat.ltb_lt in Hlt. rewrite IH; [ reflexivity | ].
    intros n Hn. apply Hagree. lia.
  - reflexivity.
  - destruct (rc <? maxRetries)%nat eqn:Hlt; [ | reflexivity ].
    apply Nat.ltb_lt in Hlt. rewrite IH; [ reflexivity | ].
    intros n Hn. apply Hagree. lia.
  - reflexivity.
Qed.

(** The attempt that decides a call is determined by the events. *)
Lemma deciding_attempt_unique :
  forall n n' : nat,
    (forall k, (k < n)%nat ->
               passes_on (attempt k) = true /\ (k < maxRetries)%nat) ->
    (passes_on (attempt n) = false \/ (maxRetries <= n)%nat) ->
    (forall k, (k < n')%nat -> passes_on (attempt k) = true) ->
    (n' <= maxRetries)%nat ->
    passes_on (attempt n') = false ->
    n' = n.
Proof.
  intros n n' Hbefore Hstop Hbefore' Hle Hstop'.
  destruct (Nat.lt_trichotomy n' n) as [ Hlt | [ Heq | Hgt ] ].
  - destruct (Hbefore n' Hlt) as [ H _ ]. rewrite H in Hstop'.
    discriminate Hstop'.
  - exact Heq.
  - destruct Hstop as [ H | H ]; [ | lia ].
    rewrite (Hbefore' n Hgt) in H. discriminate H.
Qed.

End Deciding.

Lemma on_end_Resolved :
  forall s d v,
    OllamaProxy.on_end s d = OllamaProxy.Resolved v ->
    s = 200 /\ d = OllamaProxy.Json v /\ completion v = true.
Proof.
  intros s d v H. unfold OllamaProxy.on_end in H.
  destruct (s =? 200) eqn:Es; [ | discriminate H ].
  apply Z.eqb_eq in Es.
  destruct d as [ body | text ]; cbn [OllamaProxy.JSON_parse] in H;
    [ | discriminate H ].
  destruct (Js.get body "error") as [ error | ] eqn:Eget; [ | discriminate H ].
  destruct (Js.truthy error) eqn:Etruthy.
  - destruct (Js.stringifies error); discriminate H.
  - injection H as <-. unfold completion. rewrite Eget, Etruthy.
    split; [ exact Es | split; reflexivity ].
Qed.

Lemma sum_of_schedule :
  forall n rc,
    fold_right Z.add 0
      (map (fun k => OllamaProxy.baseDelay * 2 ^ Z.of_nat k) (seq rc n))
    = OllamaProxy.baseDelay * (2 ^ Z.of_nat (rc + n) - 2 ^ Z.of_nat rc).
Proof.
  induction n as [ | n IH ]; intros rc; cbn [seq map fold_right].
  - rewrite Nat.add_0_r. lia.
  - rewrite IH.
    replace (Z.of_nat (S rc + n)) with (Z.of_nat (rc + S n)) by lia.
    replace (Z.of_nat (S rc)) with (Z.of_nat rc + 1) by lia.
    rewrite Z.pow_add_r by lia. lia.
Qed.

Lemma transport_failure_passes_on :
  forall ev, transport_failure ev = true -> Terms.passes_on ev = true.
Proof.
  intros [ s d | [ c | ] | | | ] H; cbn in H; try discriminate H.
  unfold Terms.passes_on, OllamaProxy.shouldRetry, OllamaProxy.code_is.
  cbn [OllamaProxy.code].
  apply orb_true_iff in H. destruct H as [ H | H ]; rewrite H;
    [ reflexivity | rewrite orb_true_r; reflexivity ].
Qed.

Lemma other_code_not_retried :
  forall c : option string,
    c <> Some "ECONNREFUSED" -> c <> Some "ENOTFOUND" -> c <> Some "TIMEOUT" ->
    OllamaProxy.shouldRetry (OllamaProxy.RequestError c) = false.
Proof.
  intros c H1 H2 H3.
  unfold OllamaProxy.shouldRetry, OllamaProxy.code_is.
  cbn [OllamaProxy.code OllamaProxy.statusCode].
  destruct c as [ c | ]; [ | reflexivity ].
  assert (E : forall k, Some c <> Some k -> String.eqb c k = false).
  { intros k Hk. apply String.eqb_neq. intros ->. apply Hk. reflexivity. }
  rewrite (E _ H1), (E _ H2), (E _ H3). reflexivity.
Qed.

(** X1. A call is decided by the first attempt whose handlers do not
    pass the promise on, or by the fourth attempt: every attempt before
    it ended in an ['error'] that [shouldRetry] accepts or in a timeout
    that struck while a response was arriving, and the promise ends as
    the handlers of the deciding attempt leave it (the ['end'] handler
    for a response, a rejection with the error for an ['error'], with
    the [ECONNRESET] error for a timeout before any response while
    budget is left and with the timeout error otherwise, and a promise
    that stays pending for an aborted response).  The model's fuel
    plays no part once there are four units of it. *)
Theorem callOllama_decided_by_first_attempt_not_passed_on :
  forall (this : OllamaProxy.Proxy) (upstream : OllamaProxy.Upstream)
         (requestData : value),
  exists o n,
    (forall fuel, (3 < fuel)%nat ->
       OllamaProxy.callOllama_fuel fuel this upstream requestData 0 = Some o) /\
    OllamaProxy.callOllama this upstream requestData 0 = Some o /\
    (n <= 3)%nat /\
    (forall k, (k < n)%nat ->
               Terms.passes_on (Spec.attempt this upstream requestData k) = true) /\
    (Terms.passes_on (Spec.attempt this upstream requestData n) = false
     \/ n = 3%nat) /\
    OllamaProxy.settled o
    = Terms.ends n (Spec.attempt this upstream requestData n) /\
    OllamaProxy.retries o
    = (n + Terms.orphan_timers n (Spec.attempt this upstream requestData n))%nat.
Proof.
  intros this upstream requestData.
  destruct (callOllama_has_outcome this upstream requestData 0) as [ o Ho ].
  destruct (callOllama_fuel_decided _ _ _ _ _ _ Ho)
    as (n & Hbefore & Hstop & Hlast & Hn).
  cbn [Nat.add] in *. unfold OllamaProxy.maxRetries in *.
  assert (Hle : (n <= 3)%nat).
  { destruct n as [ | n ]; [ lia | ].
    destruct (Hbefore n ltac:(lia)) as [ _ H ]. lia. }
  exists o, n. split; [ | split; [ exact Ho | ] ].
  - intros fuel Hfuel.
    apply (callOllama_fuel_more _ _ _ _ _ _ _ Ho).
    unfold OllamaProxy.maxRetries. lia.
  - split; [ exact Hle | ]. split; [ | split; [ | split; assumption ] ].
    + intros k Hk. apply Hbefore. lia.
    + destruct Hstop as [ H | H ]; [ left; exact H | right; lia ].
Qed.

(** The daemon that never answers decides the call at its first
    attempt, with fuel to spare. *)
Lemma callOllama_decided_by_first_attempt_not_passed_on_witness :
  exists o,
    OllamaProxy.callOllama_fuel 10 OllamaProxy.default_proxy Samples.silent
      Samples.generate 0 = Some o /\
    OllamaProxy.settled o
    = OllamaProxy.Rejected (OllamaProxy.RequestError (Some "ECONNRESET")) /\
    OllamaProxy.retries o = 1%nat.
Proof.
  destruct (callOllama_decided_by_first_attempt_not_passed_on
              OllamaProxy.default_proxy Samples.silent Samples.generate)
    as (o & n & Hfuel & _).
  exists o. pose proof (Hfuel 10%nat ltac:(lia)) as H.
  split; [ exact H | ].
  vm_compute in H. injection H as <-. split; reflexivity.
Defined.

(** X2. When a call resolves, it resolves with the JSON body of the last
    attempt it made, that attempt was answered with status 200, and the
    body is neither [null] nor [undefined] and carries no truthy
    [error]. *)
Theorem callOllama_resolves_with_last_body :
  forall (this : OllamaProxy.Proxy) (upstream : OllamaProxy.Upstream)
         (requestData : value) (retryCount : nat) (o : OllamaProxy.Outcome)
         (v : value),
    OllamaProxy.callOllama this upstream requestData retryCount = Some o ->
    OllamaProxy.settled o = OllamaProxy.Resolved v ->
    Spec.attempt this upstream requestData (retryCount + OllamaProxy.retries o)
    = OllamaProxy.Responded 200 (OllamaProxy.Json v)
    /\ completion v = true
    /\ v <> VNull /\ v <> VUndefined.
Proof.
  intros this upstream requestData retryCount o v Ho Hv.
  destruct (callOllama_fuel_decided _ _ _ _ _ _ Ho)
    as (n & _ & _ & Hlast & Hn).
  rewrite Hv in Hlast. symmetry in Hlast. rewrite Hn.
  destruct (Spec.attempt this upstream requestData (retryCount + n))
    as [ s d | c | | | ] eqn:Eev;
    cbn [Terms.ends Terms.orphan_timers] in *; try discriminate Hlast.
  - destruct (on_end_Resolved _ _ _ Hlast) as (-> & -> & Hc).
    rewrite Nat.add_0_r, Eev.
    split; [ reflexivity | ]. split; [ exact Hc | ].
    unfold completion in Hc.
    split; intros ->; cbn in Hc; discriminate Hc.
  - destruct (retryCount + n <? OllamaProxy.maxRetries)%nat;
      discriminate Hlast.
Qed.

(** The call that [Samples.recovering] answers on the third attempt. *)
Lemma callOllama_resolves_with_last_body_witness :
  Spec.attempt OllamaProxy.default_proxy Samples.recovering Samples.generate 2
  = OllamaProxy.Responded 200 (OllamaProxy.Json Samples.completion_body)
  /\ completion Samples.completion_body = true.
Proof.
  destruct (callOllama_resolves_with_last_body
              OllamaProxy.default_proxy Samples.recovering Samples.generate 0
              {| OllamaProxy.settled :=
                   OllamaProxy.Resolved Samples.completion_body;
                 OllamaProxy.delays := [1000; 2000] |}
              Samples.completion_body eq_refl eq_refl) as (H1 & H2 & _).
  split; [ exact H1 | exact H2 ].
Defined.

(** X3. An ['error'] event whose code is none of [ECONNREFUSED],
    [ENOTFOUND] and [TIMEOUT] (a reset connection, a broken pipe, an
    error without a code) is never retried: the call is rejected with
    that error at once, whatever budget is left. *)
Theorem callOllama_surfaces_other_request_errors :
  forall (this : OllamaProxy.Proxy) (upstream : OllamaProxy.Upstream)
         (requestData : value) (retryCount : nat) (c : option string),
    Spec.attempt this upstream requestData retryCount = OllamaProxy.Failed c ->
    c <> Some "ECONNREFUSED" -> c <> Some "ENOTFOUND" -> c <> Some "TIMEOUT" ->
    OllamaProxy.callOllama this upstream requestData retryCount
    = Some {| OllamaProxy.settled :=
                OllamaProxy.Rejected (OllamaProxy.RequestError c);
              OllamaProxy.delays := [] |}.
Proof.
  intros this upstream requestData retryCount c Hev H1 H2 H3.
  unfold OllamaProxy.callOllama.
  rewrite callOllama_fuel_last; rewrite Hev; [ reflexivity | ].
  left. cbn [Terms.passes_on]. apply other_code_not_retried; assumption.
Qed.

(** A reset connection on the first attempt. *)
Lemma callOllama_surfaces_other_request_errors_witness :
  OllamaProxy.callOllama OllamaProxy.default_proxy MoreSamples.resetting
    Samples.generate 0
  = Some {| OllamaProxy.settled :=
              OllamaProxy.Rejected
                (OllamaProxy.RequestError (Some "ECONNRESET"));
            OllamaProxy.delays := [] |}.
Proof.
  apply (callOllama_surfaces_other_request_errors
           OllamaProxy.default_proxy MoreSamples.resetting Samples.generate 0
           (Some "ECONNRESET") eq_refl);
    intros H; discriminate H.
Defined.

Lemma reply_type_of_status :
  forall (s : Z) (d : OllamaProxy.Data),
    OllamaProxy.reply_type (OllamaProxy.ApiError s d) = "invalid_request_error"
    <-> s = 400.
Proof.
  intros s d. split; [ | intros ->; reflexivity ].
  unfold OllamaProxy.reply_type. cbn [OllamaProxy.statusCode].
  intros H.
  destruct s as [ | p | p ]; try discriminate H.
  do 9 (destruct p as [ p | p | ]; try discriminate H).
  reflexivity.
Qed.

(** X4. A response with a client-error, redirect or other status that is
    neither 200 nor a server error rejects the call at once, without a
    retry; the client is then answered with the daemon's own status, and
    the error is typed [invalid_request_error] exactly when that status
    is 400. *)
Theorem callOllama_hands_on_daemon_status :
  forall (this : OllamaProxy.Proxy) (upstream : OllamaProxy.Upstream)
         (requestData : value) (retryCount : nat) (s : Z)
         (data : OllamaProxy.Data),
    Spec.attempt this upstream requestData retryCount
    = OllamaProxy.Responded s data ->
    0 < s < 500 -> s <> 200 ->
    OllamaProxy.callOllama this upstream requestData retryCount
    = Some {| OllamaProxy.settled :=
                OllamaProxy.Rejected (OllamaProxy.ApiError s data);
              OllamaProxy.delays := [] |}
    /\ OllamaProxy.reply_status (OllamaProxy.ApiError s data) = s
    /\ (OllamaProxy.reply_type (OllamaProxy.ApiError s data)
        = "invalid_request_error" <-> s = 400)
    /\ OllamaProxy.shouldRetry (OllamaProxy.ApiError s data) = false.
Proof.
  intros this upstream requestData retryCount s data Hev Hs H200.
  split; [ apply callOllama_surfaces_other_status; assumption | ].
  split; [ | split; [ apply reply_type_of_status | ] ].
  - unfold OllamaProxy.reply_status. cbn [OllamaProxy.statusCode].
    replace (s =? 0) with false by (symmetry; apply Z.eqb_neq; lia).
    reflexivity.
  - unfold OllamaProxy.shouldRetry, OllamaProxy.code_is.
    cbn [OllamaProxy.code OllamaProxy.statusCode orb].
    replace (500 <=? s) with false by (symmetry; apply Z.leb_gt; lia).
    rewrite andb_false_r. reflexivity.
Qed.

(** A daemon that does not know the path. *)
Lemma callOllama_hands_on_daemon_status_witness :
  OllamaProxy.callOllama OllamaProxy.default_proxy
    (Samples.answering 404 (OllamaProxy.NotJson "404 page not found"))
    Samples.generate 0
  = Some {| OllamaProxy.settled :=
              OllamaProxy.Rejected
                (OllamaProxy.ApiError 404
                   (OllamaProxy.NotJson "404 page not found"));
            OllamaProxy.delays := [] |}.
Proof.
  apply (proj1 (callOllama_hands_on_daemon_status
                  OllamaProxy.default_proxy
                  (Samples.answering 404
                     (OllamaProxy.NotJson "404 page not found"))
                  Samples.generate 0 404
                  (OllamaProxy.NotJson "404 page not found")
                  eq_refl ltac:(lia) ltac:(lia))).
Defined.

(** X5. A 200 response whose body is not JSON, or is the JSON [null],
    rejects the call at once with the exception the handler caught (a
    [SyntaxError], a [TypeError]); the exception has no status code, so
    it is never retried and the client is answered 500
    [internal_error]. *)
Theorem callOllama_rejects_unreadable_body :
  forall (this : OllamaProxy.Proxy) (upstream : OllamaProxy.Upstream)
         (requestData : value) (retryCount : nat) (data : OllamaProxy.Data),
    Spec.attempt this upstream requestData retryCount
    = OllamaProxy.Responded 200 data ->
    OllamaProxy.JSON_parse data = None
    \/ OllamaProxy.JSON_parse data = Some VNull ->
    exists error,
      OllamaProxy.callOllama this upstream requestData retryCount
      = Some {| OllamaProxy.settled := OllamaProxy.Rejected error;
                OllamaProxy.delays := [] |}
      /\ error
         = match OllamaProxy.JSON_parse data with
           | Some _ => OllamaProxy.TypeError
           | None => OllamaProxy.SyntaxError
           end
      /\ OllamaProxy.statusCode error = None
      /\ OllamaProxy.reply_status error = 500
      /\ OllamaProxy.reply_type error = "internal_error".
Proof.
  intros this upstream requestData retryCount data Hev Hdata.
  rewrite (callOllama_responded _ _ _ _ _ _ Hev).
  unfold OllamaProxy.on_end. cbn [Z.eqb Pos.eqb].
  destruct Hdata as [ H | H ]; rewrite H; cbn [Js.get];
    eexists; repeat split.
Qed.

(** A daemon behind a gateway that answers 200 with a page of text. *)
Lemma callOllama_rejects_unreadable_body_witness :
  exists error,
    OllamaProxy.callOllama OllamaProxy.default_proxy
      (Samples.answering 200 (OllamaProxy.NotJson "<html>"))
      Samples.generate 0
    = Some {| OllamaProxy.settled := OllamaProxy.Rejected error;
              OllamaProxy.delays := [] |}
    /\ OllamaProxy.reply_status error = 500.
Proof.
  destruct (callOllama_rejects_unreadable_body
              OllamaProxy.default_proxy
              (Samples.answering 200 (OllamaProxy.NotJson "<html>"))
              Samples.generate 0 (OllamaProxy.NotJson "<html>")
              eq_refl (or_introl eq_refl))
    as (error & Hcall & _ & _ & Hstatus & _).
  exists error. split; assumption.
Defined.

(** X6. The timers of a call entered with retry count [retryCount]:
    there are at most [3 - retryCount] of them, the one set at retry
    count [k] is of [1000 * 2^k] ms, so that together they come to
    [1000 * (2^(retryCount + retries) - 2^retryCount)] ms and never to
    more than 7 seconds; this for any fuel that lets the model run to
    its outcome. *)
Theorem callOllama_backoff_schedule :
  forall (this : OllamaProxy.Proxy) (upstream : OllamaProxy.Upstream)
         (requestData : value) (fuel retryCount : nat),
    (3 - retryCount < fuel)%nat ->
    exists o,
      OllamaProxy.callOllama_fuel fuel this upstream requestData retryCount
      = Some o /\
      OllamaProxy.callOllama this upstream requestData retryCount = Some o /\
      (OllamaProxy.retries o <= 3 - retryCount)%nat /\
      OllamaProxy.delays o
      = map (fun k => 1000 * 2 ^ Z.of_nat k)
          (seq retryCount (OllamaProxy.retries o)) /\
      Terms.total_delay o
      = 1000 * (2 ^ Z.of_nat (retryCount + OllamaProxy.retries o)
                - 2 ^ Z.of_nat retryCount) /\
      0 <= Terms.total_delay o <= 7000.
Proof.
  intros this upstream requestData fuel retryCount Hfuel.
  destruct (callOllama_fuel_enough this upstream requestData fuel retryCount)
    as [ o Ho ]; [ unfold OllamaProxy.maxRetries; lia | ].
  exists o. split; [ exact Ho | ].
  split.
  { unfold OllamaProxy.callOllama. rewrite <- Ho.
    apply callOllama_fuel_irrelevant; unfold OllamaProxy.maxRetries; lia. }
  destruct (callOllama_fuel_schedule _ _ _ _ _ _ Ho) as [ Hd Hn ].
  assert (Htotal : Terms.total_delay o
                   = 1000 * (2 ^ Z.of_nat (retryCount + OllamaProxy.retries o)
                             - 2 ^ Z.of_nat retryCount)).
  { unfold Terms.total_delay. rewrite Hd at 1.
    rewrite (sum_of_schedule (OllamaProxy.retries o) retryCount).
    reflexivity. }
  unfold OllamaProxy.maxRetries, OllamaProxy.baseDelay in *.
  split; [ exact Hn | ]. split; [ exact Hd | ].
  split; [ exact Htotal | ]. rewrite Htotal.
  destruct (OllamaProxy.retries o) as [ | n ].
  - rewrite Nat.add_0_r. lia.
  - assert (Hrc : (retryCount <= 2)%nat) by lia.
    destruct retryCount as [ | [ | [ | rc ] ] ]; [ | | | lia ];
      destruct n as [ | [ | [ | n ] ] ]; try lia; cbn; lia.
Qed.

(** The daemon that is never reached, with fuel to spare. *)
Lemma callOllama_backoff_schedule_witness :
  exists o,
    OllamaProxy.callOllama_fuel 10 OllamaProxy.default_proxy
      Samples.unreachable Samples.generate 0 = Some o /\
    OllamaProxy.delays o = [1000; 2000; 4000] /\
    Terms.total_delay o = 7000.
Proof.
  destruct (callOllama_backoff_schedule
              OllamaProxy.default_proxy Samples.unreachable Samples.generate
              10 0 ltac:(cbn; lia)) as (o & Ho & _ & _ & _ & _ & _).
  exists o. split; [ exact Ho | ].
  vm_compute in Ho. injection Ho as <-. split; reflexivity.
Defined.

(** X7. The budget of three retries comes from the tests of the
    handlers, not from the fuel: with any fuel whatever, what the daemon
    would do on a fifth or later attempt has no influence on the
    outcome of a call. *)
Theorem callOllama_never_makes_a_fifth_attempt :
  forall (this : OllamaProxy.Proxy) (upstream upstream' : OllamaProxy.Upstream)
         (requestData : value),
    (forall n, (n <= 3)%nat ->
               Spec.attempt this upstream requestData n
               = Spec.attempt this upstream' requestData n) ->
    forall fuel,
      OllamaProxy.callOllama_fuel fuel this upstream requestData 0
      = OllamaProxy.callOllama_fuel fuel this upstream' requestData 0.
Proof.
  intros this upstream upstream' requestData Hagree fuel.
  apply callOllama_fuel_window.
  intros n Hn. apply Hagree. unfold OllamaProxy.maxRetries in Hn. lia.
Qed.

(** A daemon that could be reached at the fifth attempt is not reached:
    with fuel for ten attempts the call ends as with the daemon that is
    never reached. *)
Lemma callOllama_never_makes_a_fifth_attempt_witness :
  OllamaProxy.callOllama_fuel 10 OllamaProxy.default_proxy
    MoreSamples.reachable_too_late Samples.generate 0
  = OllamaProxy.callOllama_fuel 10 OllamaProxy.default_proxy
      Samples.unreachable Samples.generate 0.
Proof.
  apply (callOllama_never_makes_a_fifth_attempt
           OllamaProxy.default_proxy MoreSamples.reachable_too_late
           Samples.unreachable Samples.generate).
  intros n Hn. unfold Spec.attempt, MoreSamples.reachable_too_late.
  apply Nat.leb_le in Hn. rewrite Hn. reflexivity.
Defined.

(** X8. When each of the four attempts ends in an ['error'] of code
    [ECONNREFUSED] or [ENOTFOUND], the call is rejected after three
    retries and seven seconds of waiting, and the client is answered
    with status 500 and an error of type [internal_error]. *)
Theorem callOllama_exhausted_is_internal_error :
  forall (this : OllamaProxy.Proxy) (upstream : OllamaProxy.Upstream)
         (requestData : value),
    (forall n, (n <= 3)%nat ->
               transport_failure (Spec.attempt this upstream requestData n)
               = true) ->
    exists o error,
      OllamaProxy.callOllama this upstream requestData 0 = Some o /\
      OllamaProxy.settled o = OllamaProxy.Rejected error /\
      OllamaProxy.retries o = 3%nat /\
      Terms.total_delay o = 7000 /\
      OllamaProxy.reply_status error = 500 /\
      OllamaProxy.reply_type error = "internal_error".
Proof.
  intros this upstream requestData Hall.
  destruct (callOllama_has_outcome this upstream requestData 0) as [ o Ho ].
  destruct (callOllama_fuel_schedule _ _ _ _ _ _ Ho) as [ Hd Hle ].
  destruct (callOllama_fuel_decided _ _ _ _ _ _ Ho)
    as (n & Hbefore & Hstop & Hlast & Hn).
  unfold OllamaProxy.maxRetries in *. cbn [Nat.add] in *.
  assert (Hn3 : n = 3%nat).
  { assert (Hle3 : (n <= 3)%nat).
    { destruct n as [ | n ]; [ lia | ].
      destruct (Hbefore n ltac:(lia)) as [ _ H ]. lia. }
    destruct Hstop as [ H | H ]; [ | lia ].
    rewrite (transport_failure_passes_on _ (Hall _ Hle3)) in H.
    discriminate H. }
  subst n.
  pose proof (Hall 3%nat (Nat.le_refl 3)) as H3.
  destruct (Spec.attempt this upstream requestData 3)
    as [ s d | [ c | ] | | | ];
    cbn in H3; try discriminate H3.
  cbn [Terms.ends Terms.orphan_timers Nat.add] in Hlast, Hn.
  assert (Htotal : Terms.total_delay o = 7000).
  { unfold Terms.total_delay. rewrite Hd, Hn. reflexivity. }
  exists o, (OllamaProxy.RequestError (Some c)).
  repeat split; assumption.
Qed.

(** The daemon whose name never resolves. *)
Lemma callOllama_exhausted_is_internal_error_witness :
  exists o error,
    OllamaProxy.callOllama OllamaProxy.default_proxy Samples.unreachable
      Samples.generate 0 = Some o /\
    OllamaProxy.settled o = OllamaProxy.Rejected error /\
    OllamaProxy.reply_status error = 500.
Proof.
  destruct (callOllama_exhausted_is_internal_error
              OllamaProxy.default_proxy Samples.unreachable Samples.generate
              (fun _ _ => eq_refl))
    as (o & error & Ho & Hs & _ & _ & Hr & _).
  exists o, error. repeat split; assumption.
Defined.

(** ** Further properties of the transformer *)

(** The shape of every request that [transformRequest] returns. *)
Lemma transformRequest_Some :
  forall req req' : OllamaTransformer.HttpRequest,
    OllamaTransformer.transformRequest req = Some req' ->
    exists model messages stream max_tokens temperature top_p tools,
      Js.get (OllamaTransformer.body req) "model" = Some model /\
      Js.get (OllamaTransformer.body req) "messages" = Some messages /\
      Js.get (OllamaTransformer.body req) "stream" = Some stream /\
      Js.get (OllamaTransformer.body req) "max_tokens" = Some max_tokens /\
      Js.get (OllamaTransformer.body req) "temperature" = Some temperature /\
      Js.get (OllamaTransformer.body req) "top_p" = Some top_p /\
      Js.get (OllamaTransformer.body req) "tools" = Some tools /\
      req'
      = {| OllamaTransformer.body :=
             VObj ([ ("model", model);
                     ("messages", messages);
                     ("stream", VBool (Js.not_false stream)) ]
                   ++ OllamaTransformer.optional_field "max_tokens" max_tokens
                   ++ OllamaTransformer.optional_field "temperature" temperature
                   ++ OllamaTransformer.optional_field "top_p" top_p
                   ++ OllamaTransformer.optional_field "tools" tools);
           OllamaTransformer.headers := OllamaTransformer.headers req;
           OllamaTransformer.method := OllamaTransformer.method req;
           OllamaTransformer.url := OllamaTransformer.url req;
           OllamaTransformer.params := OllamaTransformer.params req;
           OllamaTransformer.query := OllamaTransformer.query req |}.
Proof.
  intros req req' H. unfold OllamaTransformer.transformRequest in H.
  destruct (Js.get (OllamaTransformer.body req) "model") as [ m | ];
    [ | discriminate H ].
  destruct (Js.get (OllamaTransformer.body req) "messages") as [ ms | ];
    [ | discriminate H ].
  destruct (Js.get (OllamaTransformer.body req) "stream") as [ s | ];
    [ | discriminate H ].
  destruct (Js.get (OllamaTransformer.body req) "max_tokens") as [ mt | ];
    [ | discriminate H ].
  destruct (Js.get (OllamaTransformer.body req) "temperature") as [ t | ];
    [ | discriminate H ].
  destruct (Js.get (OllamaTransformer.body req) "top_p") as [ tp | ];
    [ | discriminate H ].
  destruct (Js.get (OllamaTransformer.body req) "tools") as [ tl | ];
    [ | discriminate H ].
  cbn [and_then] in H. injection H as <-.
  exists m, ms, s, mt, t, tp, tl. repeat (split; [ reflexivity | ]).
  rewrite <- !app_assoc. reflexivity.
Qed.

(** Reading back what [transformRequest] wrote. *)
Lemma lookup_written :
  forall model messages stream max_tokens temperature top_p tools,
    let fields :=
      [ ("model", model); ("messages", messages); ("stream", stream) ]
      ++ OllamaTransformer.optional_field "max_tokens" max_tokens
      ++ OllamaTransformer.optional_field "temperature" temperature
      ++ OllamaTransformer.optional_field "top_p" top_p
      ++ OllamaTransformer.optional_field "tools" tools in
    Js.lookup "model" fields = model /\
    Js.lookup "messages" fields = messages /\
    Js.lookup "stream" fields = stream /\
    Js.lookup "max_tokens" fields
    = (if Js.truthy max_tokens then max_tokens else VUndefined) /\
    Js.lookup "temperature" fields
    = (if Js.truthy temperature then temperature else VUndefined) /\
    Js.lookup "top_p" fields
    = (if Js.truthy top_p then top_p else VUndefined) /\
    Js.lookup "tools" fields
    = (if Js.truthy tools then tools else VUndefined).
Proof.
  intros model messages stream max_tokens temperature top_p tools fields.
  subst fields. unfold OllamaTransformer.optional_field.
  destruct (Js.truthy max_tokens), (Js.truthy temperature),
    (Js.truthy top_p), (Js.truthy tools);
    repeat split; reflexivity.
Qed.

Lemma optional_field_again :
  forall k v,
    OllamaTransformer.optional_field k (if Js.truthy v then v else VUndefined)
    = OllamaTransformer.optional_field k v.
Proof.
  intros k v. unfold OllamaTransformer.optional_field.
  destruct (Js.truthy v) eqn:E; [ rewrite E | ]; reflexivity.
Qed.

Lemma not_false_again :
  forall v, Js.not_false (VBool (Js.not_false v)) = Js.not_false v.
Proof.
  intros v. destruct (Js.not_false v); reflexivity.
Qed.

(** X9. [transformRequest] is idempotent: applied to a request it has
    returned, it returns that request again. *)
Theorem transformRequest_idempotent :
  forall req req' : OllamaTransformer.HttpRequest,
    OllamaTransformer.transformRequest req = Some req' ->
    OllamaTransformer.transformRequest req' = Some req'.
Proof.
  intros req req' H.
  destruct (transformRequest_Some _ _ H)
    as (m & ms & s & mt & t & tp & tl & _ & _ & _ & _ & _ & _ & _ & ->).
  destruct (lookup_written m ms (VBool (Js.not_false s)) mt t tp tl)
    as (H1 & H2 & H3 & H4 & H5 & H6 & H7).
  unfold OllamaTransformer.transformRequest.
  cbn [OllamaTransformer.body OllamaTransformer.headers
       OllamaTransformer.method OllamaTransformer.url
       OllamaTransformer.params OllamaTransformer.query Js.get and_then].
  rewrite H1, H2, H3, H4, H5, H6, H7.
  rewrite !optional_field_again, not_false_again, <- !app_assoc.
  reflexivity.
Qed.

(** The request that asks for no streaming, transformed twice. *)
Lemma transformRequest_idempotent_witness :
  exists req',
    OllamaTransformer.transformRequest Samples.unstreamed = Some req' /\
    OllamaTransformer.transformRequest req' = Some req'.
Proof.
  eexists. split; [ reflexivity | ].
  apply (transformRequest_idempotent Samples.unstreamed). reflexivity.
Defined.

Lemma eqb_other :
  forall (k : string) (names : list string) (name : string),
    ~ In k names -> In name names -> String.eqb k name = false.
Proof.
  intros k names name Hk Hname. apply String.eqb_neq.
  intros ->. exact (Hk Hname).
Qed.

(** X10. The body that [transformRequest] builds holds the [model] and
    the [messages] of the incoming body as they are, and has no property
    of its own other than [model], [messages], [stream], [max_tokens],
    [temperature], [top_p] and [tools]: whatever else the client sent is
    dropped. *)
Theorem transformRequest_keeps_known_properties_only :
  forall req req' : OllamaTransformer.HttpRequest,
    OllamaTransformer.transformRequest req = Some req' ->
    Js.get (OllamaTransformer.body req') "model"
    = Js.get (OllamaTransformer.body req) "model"
    /\ Js.get (OllamaTransformer.body req') "messages"
       = Js.get (OllamaTransformer.body req) "messages"
    /\ (forall k,
           ~ In k Terms.written ->
           has_field k (OllamaTransformer.body req') = false).
Proof.
  intros req req' H.
  destruct (transformRequest_Some _ _ H)
    as (m & ms & s & mt & t & tp & tl & Hm & Hms & _ & _ & _ & _ & _ & ->).
  cbn [OllamaTransformer.body Js.get].
  rewrite Hm, Hms. split; [ reflexivity | ]. split; [ reflexivity | ].
  intros k Hk.
  assert (E : forall name, In name Terms.written -> String.eqb k name = false).
  { intros name Hname. exact (eqb_other k _ name Hk Hname). }
  pose proof (E "model" ltac:(cbn; tauto)) as E1.
  pose proof (E "messages" ltac:(cbn; tauto)) as E2.
  pose proof (E "stream" ltac:(cbn; tauto)) as E3.
  pose proof (E "max_tokens" ltac:(cbn; tauto)) as E4.
  pose proof (E "temperature" ltac:(cbn; tauto)) as E5.
  pose proof (E "top_p" ltac:(cbn; tauto)) as E6.
  pose proof (E "tools" ltac:(cbn; tauto)) as E7.
  unfold has_field, OllamaTransformer.optional_field.
  destruct (Js.truthy mt), (Js.truthy t), (Js.truthy tp), (Js.truthy tl);
    cbn [app existsb fst Js.lookup];
    rewrite ?E1, ?E2, ?E3, ?E4, ?E5, ?E6, ?E7;
    reflexivity.
Qed.

(** A property the transformer does not know is not passed on. *)
Lemma transformRequest_keeps_known_properties_only_witness :
  exists req',
    OllamaTransformer.transformRequest MoreSamples.tuned = Some req' /\
    has_field "seed" (OllamaTransformer.body MoreSamples.tuned) = true /\
    has_field "seed" (OllamaTransformer.body req') = false.
Proof.
  eexists. split; [ reflexivity | ]. split; [ reflexivity | ].
  apply (proj2 (proj2 (transformRequest_keeps_known_properties_only
                         MoreSamples.tuned _ eq_refl))).
  cbn. intros H. repeat (destruct H as [ H | H ]; [ discriminate H | ]).
  exact H.
Defined.

(** X11. Each of [max_tokens], [temperature], [top_p] and [tools] is
    written to the new body exactly when its incoming value is truthy,
    and then with that value: a value of 0, an empty string, [null] or a
    missing property leaves the new body without the property. *)
Theorem transformRequest_optional_properties :
  forall (req req' : OllamaTransformer.HttpRequest) (k : string),
    In k Terms.optional ->
    OllamaTransformer.transformRequest req = Some req' ->
    exists v,
      Js.get (OllamaTransformer.body req) k = Some v /\
      has_field k (OllamaTransformer.body req') = Js.truthy v /\
      Js.get (OllamaTransformer.body req') k
      = Some (if Js.truthy v then v else VUndefined).
Proof.
  intros req req' k Hk H.
  destruct (transformRequest_Some _ _ H)
    as (m & ms & s & mt & t & tp & tl & _ & _ & _ & Hmt & Ht & Htp & Htl & ->).
  destruct (lookup_written m ms (VBool (Js.not_false s)) mt t tp tl)
    as (_ & _ & _ & H4 & H5 & H6 & H7).
  cbn [OllamaTransformer.body Js.get].
  cbn in Hk.
  destruct Hk as [ <- | [ <- | [ <- | [ <- | [] ] ] ] ];
    [ exists mt; rewrite Hmt, H4
    | exists t; rewrite Ht, H5
    | exists tp; rewrite Htp, H6
    | exists tl; rewrite Htl, H7 ];
    (split; [ reflexivity | ]); (split; [ | reflexivity ]);
    unfold has_field, OllamaTransformer.optional_field;
    destruct (Js.truthy mt), (Js.truthy t), (Js.truthy tp), (Js.truthy tl);
    reflexivity.
Qed.

(** A temperature of 0 is not passed on; a token limit of 64 is. *)
Lemma transformRequest_optional_properties_witness :
  exists req',
    OllamaTransformer.transformRequest MoreSamples.tuned = Some req' /\
    has_field "temperature" (OllamaTransformer.body req') = false /\
    Js.get (OllamaTransformer.body req') "max_tokens" = Some (VNum 64).
Proof.
  eexists. split; [ reflexivity | ].
  destruct (transformRequest_optional_properties
              MoreSamples.tuned _ "temperature"
              ltac:(cbn; tauto) eq_refl) as (v & Hv & Hhas & _).
  destruct (transformRequest_optional_properties
              MoreSamples.tuned _ "max_tokens"
              ltac:(cbn; tauto) eq_refl) as (w & Hw & _ & Hget).
  cbn in Hv, Hw. injection Hv as <-. injection Hw as <-.
  split; [ exact Hhas | exact Hget ].
Defined.

(** ** Further properties of the request translation *)

Lemma string_append_assoc :
  forall a b c : string, ((a ++ b) ++ c = a ++ (b ++ c))%string.
Proof.
  induction a as [ | x a IH ]; intros b c; cbn [String.append].
  - reflexivity.
  - rewrite IH. reflexivity.
Qed.

Lemma concat_cons :
  forall (sep h : string) (t : list string),
    t <> [] ->
    String.concat sep (h :: t) = (h ++ sep ++ String.concat sep t)%string.
Proof.
  intros sep h [ | x t ] H; [ exfalso; apply H; reflexivity | reflexivity ].
Qed.

Lemma concat_app :
  forall (sep : string) (l1 l2 : list string),
    l1 <> [] -> l2 <> [] ->
    String.concat sep (l1 ++ l2)
    = (String.concat sep l1 ++ sep ++ String.concat sep l2)%string.
Proof.
  intros sep l1 l2 H1 H2. induction l1 as [ | h t IH ];
    [ exfalso; apply H1; reflexivity | ].
  destruct t as [ | x t ].
  - cbn [app]. rewrite concat_cons by exact H2. reflexivity.
  - change ((h :: x :: t) ++ l2) with (h :: ((x :: t) ++ l2)).
    rewrite concat_cons by (intros E; discriminate E).
    rewrite IH by (intros E; discriminate E).
    rewrite (concat_cons sep h (x :: t)) by (intros E; discriminate E).
    rewrite !string_append_assoc. reflexivity.
Qed.

Lemma concat_merge :
  forall (sep a b : string) (t : list string),
    String.concat sep (a :: b :: t)
    = String.concat sep ((a ++ sep ++ b)%string :: t).
Proof.
  intros sep a b [ | c t ].
  - reflexivity.
  - rewrite (concat_cons sep a) by (intros E; discriminate E).
    rewrite (concat_cons sep b) by (intros E; discriminate E).
    rewrite (concat_cons sep (a ++ sep ++ b)) by (intros E; discriminate E).
    rewrite !string_append_assoc. reflexivity.
Qed.

Lemma convertOpenAIToOllama_prompt_of :
  forall (req : OllamaProxy.ChatRequest) (ms : list OllamaProxy.Message),
    Js.get (OllamaProxy.convertOpenAIToOllama (Terms.with_messages req ms))
      "prompt"
    = Some (VStr (Terms.prompt_of ms)).
Proof.
  intros req ms. reflexivity.
Qed.

(** X12. The prompt of a conversation is built turn by turn: no message
    gives the empty prompt, one message gives its line [role: content],
    and the prompt of two conversations put end to end is the prompt of
    the first, a newline, and the prompt of the second. *)
Theorem convertOpenAIToOllama_prompt_of_appended_messages :
  forall (req : OllamaProxy.ChatRequest) (ms1 ms2 : list OllamaProxy.Message)
         (p1 p2 : string),
    let prompt ms :=
      Js.get (OllamaProxy.convertOpenAIToOllama (Terms.with_messages req ms))
        "prompt" in
    ms1 <> [] -> ms2 <> [] ->
    prompt ms1 = Some (VStr p1) ->
    prompt ms2 = Some (VStr p2) ->
    prompt (ms1 ++ ms2) = Some (VStr (p1 ++ OllamaProxy.newline ++ p2))
    /\ prompt [] = Some (VStr "")
    /\ (forall m,
           prompt [m]
           = Some (VStr (OllamaProxy.role m ++ ": " ++ OllamaProxy.content m))).
Proof.
  intros req ms1 ms2 p1 p2 prompt H1 H2 Hp1 Hp2. subst prompt.
  cbv beta in *. rewrite convertOpenAIToOllama_prompt_of in *.
  split; [ | split; [ reflexivity | intros m; reflexivity ] ].
  assert (E1 : Terms.prompt_of ms1 = p1) by congruence.
  assert (E2 : Terms.prompt_of ms2 = p2) by congruence.
  subst p1 p2. unfold Terms.prompt_of. rewrite map_app.
  rewrite concat_app; [ reflexivity | | ].
  - destruct ms1; [ exfalso; apply H1; reflexivity | discriminate ].
  - destruct ms2; [ exfalso; apply H2; reflexivity | discriminate ].
Qed.

(** The sample conversation as its system turn followed by its user
    turn. *)
Lemma convertOpenAIToOllama_prompt_of_appended_messages_witness :
  Js.get (OllamaProxy.convertOpenAIToOllama
            (Terms.with_messages Samples.chat
               ([ {| OllamaProxy.role := "system";
                     OllamaProxy.content := "Be brief." |} ]
                ++ [ {| OllamaProxy.role := "user";
                        OllamaProxy.content := "hi" |} ]))) "prompt"
  = Some (VStr ("system: Be brief." ++ OllamaProxy.newline ++ "user: hi")).
Proof.
  apply (proj1 (convertOpenAIToOllama_prompt_of_appended_messages
                  Samples.chat
                  [ {| OllamaProxy.role := "system";
                       OllamaProxy.content := "Be brief." |} ]
                  [ {| OllamaProxy.role := "user";
                       OllamaProxy.content := "hi" |} ]
                  "system: Be brief." "user: hi"
                  ltac:(discriminate) ltac:(discriminate)
                  eq_refl eq_refl)).
Defined.

(** X13. The daemon request does not tell where one message ends and the
    next begins: a conversation, and the conversation in which the first
    two messages are merged into one message whose content holds the
    line of the second, are translated into the same daemon request. *)
Theorem convertOpenAIToOllama_forgets_turn_boundaries :
  forall (req : OllamaProxy.ChatRequest) (m1 m2 : OllamaProxy.Message)
         (ms : list OllamaProxy.Message),
    let merged :=
      {| OllamaProxy.role := OllamaProxy.role m1;
         OllamaProxy.content :=
           OllamaProxy.content m1 ++ OllamaProxy.newline
           ++ OllamaProxy.role m2 ++ ": " ++ OllamaProxy.content m2 |} in
    OllamaProxy.convertOpenAIToOllama (Terms.with_messages req (m1 :: m2 :: ms))
    = OllamaProxy.convertOpenAIToOllama (Terms.with_messages req (merged :: ms)).
Proof.
  intros req m1 m2 ms merged.
  assert (E : Terms.prompt_of (m1 :: m2 :: ms) = Terms.prompt_of (merged :: ms)).
  { unfold Terms.prompt_of. subst merged.
    cbn [map OllamaProxy.role OllamaProxy.content].
    rewrite concat_merge, !string_append_assoc. reflexivity. }
  unfold OllamaProxy.convertOpenAIToOllama, Terms.prompt_of in *.
  cbn [OllamaProxy.model OllamaProxy.messages OllamaProxy.max_tokens
       OllamaProxy.temperature OllamaProxy.top_p Terms.with_messages].
  rewrite E. reflexivity.
Qed.

(** ** Further properties of the HTTP front *)




(** ** Properties of the transformer types *)

Lemma includes_spec :
  forall s needle : string,
    TransformerTypes.includes s needle = true
    <-> exists pre post, s = (pre ++ needle ++ post)%string.
Proof.
  intros s needle. split.
  - induction s as [ | c s IH ]; cbn [TransformerTypes.includes].
    + destruct (OllamaProxy.strip_prefix needle "") as [ rest | ] eqn:E;
        [ | intros H; discriminate H ].
      intros _. apply strip_prefix_Some in E. exists "", rest. exact E.
    + destruct (OllamaProxy.strip_prefix needle (String c s))
        as [ rest | ] eqn:E.
      * intros _. apply strip_prefix_Some in E. exists "", rest. exact E.
      * intros H. destruct (IH H) as (pre & post & ->).
        exists (String c pre), post. reflexivity.
  - intros (pre & post & ->).
    induction pre as [ | c pre IH ].
    + cbn [String.append].
      assert (E : OllamaProxy.strip_prefix needle (needle ++ post)
                  = Some post) by (apply strip_prefix_Some; reflexivity).
      destruct (needle ++ post)%string; cbn [TransformerTypes.includes];
        rewrite E; reflexivity.
    + cbn [String.append TransformerTypes.includes].
      destruct (OllamaProxy.strip_prefix needle
                  (String c (pre ++ needle ++ post))); [ reflexivity | ].
      exact IH.
Qed.

(** X15. [isStreamingResponse] answers [true] exactly for a response
    that has headers with a non-empty [content-type] (under that name, in
    lower case) in which [text/event-stream] or [text/plain] occurs
    somewhere, parameters or not; a response without headers or without
    that header is not streaming. *)
Theorem isStreamingResponse_iff_content_type_mentions_stream :
  forall response : TransformerTypes.HttpResponse,
    TransformerTypes.isStreamingResponse response = true
    <-> exists record contentType pre post,
          TransformerTypes.headers response = Some record /\
          TransformerTypes.record_get "content-type" record
          = Some contentType /\
          (contentType = (pre ++ "text/event-stream" ++ post)%string \/
           contentType = (pre ++ "text/plain" ++ post)%string).
Proof.
  intros [ hs ]. unfold TransformerTypes.isStreamingResponse.
  cbn [TransformerTypes.headers]. rewrite orb_true_iff, !includes_spec.
  split.
  - intros H.
    assert (Hct : exists pre post marker,
               OllamaProxy.string_or
                 match hs with
                 | Some record =>
                     TransformerTypes.record_get "content-type" record
                 | None => None
                 end ""
               = (pre ++ marker ++ post)%string
               /\ (marker = "text/event-stream" \/ marker = "text/plain")).
    { destruct H as [ (pre & post & E) | (pre & post & E) ];
        exists pre, post; eexists; (split; [ exact E | ]); auto. }
    destruct Hct as (pre & post & marker & E & Hmarker).
    destruct hs as [ record | ].
    + destruct (TransformerTypes.record_get "content-type" record)
        as [ ct | ] eqn:Eget.
      * exists record, ct, pre, post. split; [ reflexivity | ].
        split; [ exact Eget | ].
        unfold OllamaProxy.string_or in E.
        destruct (String.eqb ct "") eqn:Eempty.
        -- destruct pre; destruct Hmarker as [ -> | -> ]; discriminate E.
        -- destruct Hmarker as [ -> | -> ]; [ left | right ]; exact E.
      * cbn in E. destruct pre; destruct Hmarker as [ -> | -> ];
          discriminate E.
    + cbn in E. destruct pre; destruct Hmarker as [ -> | -> ];
        discriminate E.
  - intros (record & ct & pre & post & Hhs & Hget & Hct).
    subst hs. rewrite Hget. unfold OllamaProxy.string_or.
    replace (String.eqb ct "") with false.
    + destruct Hct as [ -> | -> ]; [ left | right ]; exists pre, post;
        reflexivity.
    + symmetry. apply String.eqb_neq.
      destruct Hct as [ -> | -> ]; destruct pre; intros E; discriminate E.
Qed.

(** An event stream with a character set. *)
Lemma isStreamingResponse_iff_content_type_mentions_stream_witness :
  TransformerTypes.isStreamingResponse MoreSamples.event_stream = true.
Proof.
  apply (proj2 (isStreamingResponse_iff_content_type_mentions_stream
                  MoreSamples.event_stream)).
  exists [ ("cache-control", "no-cache");
           ("content-type", "text/event-stream; charset=utf-8") ],
    "text/event-stream; charset=utf-8", "", "; charset=utf-8".
  split; [ reflexivity | ]. split; [ reflexivity | left; reflexivity ].
Defined.

(** ** The reply to a rejected call *)

Lemma reply_status_of_api_error :
  forall (s : Z) (d : OllamaProxy.Data),
    OllamaProxy.reply_status (OllamaProxy.ApiError s d) = 400 <-> s = 400.
Proof.
  intros s d. unfold OllamaProxy.reply_status. cbn [OllamaProxy.statusCode].
  destruct (s =? 0) eqn:E.
  - apply Z.eqb_eq in E. subst s. split; intros H; discriminate H.
  - reflexivity.
Qed.

(** X16. The client of a rejected call is answered with status 400
    exactly when the attempt that decided the call (the first one not
    passed on) was answered by the daemon, either with status 400 or
    with status 200 and a JSON body whose [error] is truthy and has a
    string conversion; every other rejection (a transport error, a
    timeout, an unreadable body, an [error] without a string conversion,
    another status) is answered otherwise. *)
Theorem rejected_call_answered_400_iff :
  forall (this : OllamaProxy.Proxy) (upstream : OllamaProxy.Upstream)
         (requestData : value) (o : OllamaProxy.Outcome)
         (error : OllamaProxy.ProxyError),
    OllamaProxy.callOllama this upstream requestData 0 = Some o ->
    OllamaProxy.settled o = OllamaProxy.Rejected error ->
    (OllamaProxy.reply_status error = 400
     <-> exists n s d,
           (n <= 3)%nat /\
           (forall k, (k < n)%nat ->
              Terms.passes_on (Spec.attempt this upstream requestData k)
              = true) /\
           Spec.attempt this upstream requestData n
           = OllamaProxy.Responded s d /\
           (s = 400 \/
            (s = 200 /\
             exists body e,
               d = OllamaProxy.Json body /\
               Js.get body "error" = Some e /\
               Js.truthy e = true /\ Js.stringifies e = true))).
Proof.
  intros this upstream requestData o error Ho Hrej.
  destruct (callOllama_fuel_decided _ _ _ _ _ _ Ho)
    as (n & Hbefore & Hstop & Hlast & _).
  cbn [Nat.add] in *. rewrite Hrej in Hlast.
  assert (Hle : (n <= 3)%nat).
  { destruct n as [ | n ]; [ lia | ].
    destruct (Hbefore n ltac:(lia)) as [ _ H ].
    unfold OllamaProxy.maxRetries in H. lia. }
  assert (Hsame : forall n' s d,
             (n' <= 3)%nat ->
             (forall k, (k < n')%nat ->
                Terms.passes_on (Spec.attempt this upstream requestData k)
                = true) ->
             Spec.attempt this upstream requestData n'
             = OllamaProxy.Responded s d ->
             Spec.attempt this upstream requestData n
             = OllamaProxy.Responded s d).
  { intros n' s d Hle' Hbefore' Hev.
    replace n with n'; [ exact Hev | ].
    apply (deciding_attempt_unique this upstream requestData n n').
    - intros k Hk. apply Hbefore. lia.
    - exact Hstop.
    - exact Hbefore'.
    - exact Hle'.
    - rewrite Hev. reflexivity. }
  split.
  - intros H400. exists n.
    destruct (Spec.attempt this upstream requestData n)
      as [ s d | c | | | ]; cbn [Terms.ends] in Hlast.
    + exists s, d. split; [ exact Hle | ].
      split; [ intros k Hk; apply Hbefore; lia | ].
      split; [ reflexivity | ].
      unfold OllamaProxy.on_end in Hlast.
      destruct (s =? 200) eqn:Es.
      * apply Z.eqb_eq in Es. right. split; [ exact Es | ].
        destruct d as [ body | text ]; cbn [OllamaProxy.JSON_parse] in Hlast;
          [ | injection Hlast as ->; discriminate H400 ].
        destruct (Js.get body "error") as [ e | ] eqn:Eget;
          [ | injection Hlast as ->; discriminate H400 ].
        destruct (Js.truthy e) eqn:Et; [ | discriminate Hlast ].
        destruct (Js.stringifies e) eqn:Estr;
          [ | injection Hlast as ->; discriminate H400 ].
        exists body, e. repeat split; assumption.
      * injection Hlast as ->. left.
        apply (reply_status_of_api_error s d). exact H400.
    + injection Hlast as ->. discriminate H400.
    + destruct (n <? OllamaProxy.maxRetries)%nat;
        injection Hlast as ->; discriminate H400.
    + injection Hlast as ->. discriminate H400.
    + discriminate Hlast.
  - intros (n' & s & d & Hle' & Hbefore' & Hev & Hcase).
    rewrite (Hsame n' s d Hle' Hbefore' Hev) in Hlast.
    cbn [Terms.ends] in Hlast. unfold OllamaProxy.on_end in Hlast.
    destruct Hcase as [ -> | (-> & body & e & -> & Hget & Ht & Hstr) ].
    + cbn in Hlast. injection Hlast as ->. reflexivity.
    + cbn [Z.eqb Pos.eqb OllamaProxy.JSON_parse] in Hlast.
      rewrite Hget, Ht, Hstr in Hlast. injection Hlast as ->. reflexivity.
Qed.

(** The model the daemon does not have: a 400 for the client. *)
Lemma rejected_call_answered_400_iff_witness :
  OllamaProxy.reply_status (OllamaProxy.ModelError Samples.model_not_found)
  = 400.
Proof.
  apply (proj2 (rejected_call_answered_400_iff
                  OllamaProxy.default_proxy
                  (Samples.answering 200
                     (OllamaProxy.Json Samples.model_not_found))
                  Samples.generate
                  {| OllamaProxy.settled :=
                       OllamaProxy.Rejected
                         (OllamaProxy.ModelError Samples.model_not_found);
                     OllamaProxy.delays := [] |}
                  (OllamaProxy.ModelError Samples.model_not_found)
                  eq_refl eq_refl)).
  exists 0%nat, 200, (OllamaProxy.Json Samples.model_not_found).
  split; [ lia | ]. split; [ intros k Hk; lia | ].
  split; [ reflexivity | ]. right. split; [ reflexivity | ].
  exists Samples.model_not_found,
    (VStr "model 'non-existent-model' not found").
  repeat split.
Defined.
